(** * Secure code executor: a shallow embedding of
      [security/secure_code_executor.py]

    The module hosts three cooperating classes: [ASTSecurityAnalyzer]
    (a syntax-tree walker), [ResourceMonitor] (memory check and alarm
    based deadline) and [SecureCodeExecutor] (the orchestrator whose
    [execute_code] runs a snippet and maps every failure to a result
    dictionary).  The Python interpreter itself (parser, compiler, the
    behaviour of a running snippet, the process clock) is not part of
    the module: it is a record [PyHost] over which everything below is
    parametrised.

    Conventions.  Time is counted in milliseconds.  Names are strings.
    Rendering an exception with [str] and reading the capture buffer
    with [getvalue] succeed.  Limits of the interpreter itself (call
    depth, memory) are not represented.  Logging is left out. *)

From Stdlib Require Import ZArith NArith List String Ascii Lia.
From stdpp Require Import base gmap sets list strings.

Local Open Scope N_scope.

(** ** Python [str] values

    A Python string is a sequence of Unicode code points.  Literals of
    the (UTF-8 encoded) source file are decoded by [py]. *)
Module PyStr.

Definition pystr : Type := list N.

(** UTF-8 decoding of a literal: a lead byte announces how many
    continuation bytes (six payload bits each) follow. *)
Fixpoint utf8_decode (pending : nat) (acc : N) (bs : list N) : pystr :=
  match bs with
  | [] => []
  | b :: bs' =>
      match pending with
      | O =>
          if b <? 128 then b :: utf8_decode 0 0 bs'
          else if b <? 224 then utf8_decode 1 (b - 192) bs'
          else if b <? 240 then utf8_decode 2 (b - 224) bs'
          else utf8_decode 3 (b - 240) bs'
      | S O => (acc * 64 + (b - 128)) :: utf8_decode 0 0 bs'
      | S k => utf8_decode k (acc * 64 + (b - 128)) bs'
      end
  end.

Definition py (s : string) : pystr :=
  utf8_decode 0 0 (List.map N_of_ascii (list_ascii_of_string s)).

(** [str.isspace] on one character: the code points whose bidirectional
    class is WS, B or S, or whose category is Zs. *)
Definition isspace (c : N) : bool :=
  ((9 <=? c) && (c <=? 13)) || ((28 <=? c) && (c <=? 32))
  || (c =? 133) || (c =? 160) || (c =? 5760)
  || ((8192 <=? c) && (c <=? 8202))
  || (c =? 8232) || (c =? 8233) || (c =? 8239) || (c =? 8287)
  || (c =? 12288).

Fixpoint lstrip (s : pystr) : pystr :=
  match s with
  | c :: s' => if isspace c then lstrip s' else s
  | [] => []
  end.

Definition rstrip (s : pystr) : pystr := rev (lstrip (rev s)).

(** [s.strip()] *)
Definition strip (s : pystr) : pystr := rstrip (lstrip s).

(** Truth value of a string: empty strings are false. *)
Definition truthy (s : pystr) : bool :=
  match s with [] => false | _ :: _ => true end.

Definition eqb (a b : pystr) : bool := bool_decide (a = b).

(** [s.startswith(p)] *)
Fixpoint startswith (s p : pystr) : bool :=
  match p, s with
  | [], _ => true
  | _ :: _, [] => false
  | a :: p', b :: s' => (a =? b) && startswith s' p'
  end.

(** [s.split('.')[0]]: the characters before the first full stop. *)
Fixpoint split_dot_head (s : pystr) : pystr :=
  match s with
  | [] => []
  | c :: s' => if c =? 46 then [] else c :: split_dot_head s'
  end.

(** [needle in s] *)
Fixpoint contains (needle s : pystr) : bool :=
  startswith s needle
  || match s with [] => false | _ :: s' => contains needle s' end.

(** [s.lower()], restricted to the mapping of A-Z.  The executor only
    searches the lowered text for keywords made of the ASCII letters
    a, d, e, i, m, n, o, p, r, s, t, u and y, which no other case
    mapping of Unicode produces in sequence. *)
Definition lower (s : pystr) : pystr :=
  List.map (fun c => if (65 <=? c) && (c <=? 90) then c + 32 else c) s.

End PyStr.
Export PyStr.

(** ** The interpreter the module runs on

    Exceptions, values, dictionaries held in a store, and the services
    the module obtains from Python: all of it outside the source file,
    hence abstract. *)
Module Host.

Definition loc : Type := positive.

(** Values bound to names.  Dictionaries live in the store and are held
    by reference; every other object (module, function, data frame) is
    an opaque named handle. *)
Inductive value : Type :=
| VNone
| VInt (z : Z)
| VStr (s : pystr)
| VRef (l : loc)
| VObj (name : pystr).

(** An exception object: the method resolution order of its class, by
    class name and most specific first ([type(e).__mro__]), the
    arguments it was constructed with, and what [str(e)] does: it
    renders the text [exn_str], unless the class has a [__str__] of
    its own that raises, and then [exn_str_raises] is the exception it
    raises. *)
#[warnings="-register-all"]
Inductive exn : Type := MkExn {
  exn_mro : list pystr;
  exn_args : list value;
  exn_str : pystr;
  exn_str_raises : option exn
}.

(** [isinstance(e, cls)]: what an [except cls] clause tests. *)
Definition isinstance (e : exn) (cls : pystr) : bool :=
  bool_decide (cls ∈ exn_mro e).

(** [type(e).__name__] *)
Definition type_name (e : exn) : pystr :=
  match exn_mro e with c :: _ => c | [] => [] end.

(** A call either returns or raises. *)
Inductive completion (A : Type) : Type :=
| Return (a : A)
| Raise (e : exn).
Arguments Return {A} a.
Arguments Raise {A} e.

(** [str(e)], also what an f-string does with [e]. *)
Definition str_of (e : exn) : completion pystr :=
  match exn_str_raises e with
  | Some e' => Raise e'
  | None => Return (exn_str e)
  end.

(** An [io.StringIO] object: the text it holds and whether it has been
    closed.  The one [execute_code] creates is what a snippet reaches as
    [sys.stdout] and [sys.stderr]; it can write to it, and it can also
    rewind, truncate or close it. *)
Record stream : Type := MkStream {
  stream_text : pystr;
  stream_closed : bool
}.

(** [StringIO()] *)
Definition StringIO : stream :=
  {| stream_text := []; stream_closed := false |}.

(** What every operation on a closed stream raises. *)
Definition closed_file_error : exn :=
  {| exn_mro := List.map py ["ValueError"; "Exception"; "BaseException";
                             "object"]%string;
     exn_args := [VStr (py "I/O operation on closed file")];
     exn_str := py "I/O operation on closed file";
     exn_str_raises := None |}.

(** [buffer.getvalue()] *)
Definition getvalue (buffer : stream) : completion pystr :=
  if stream_closed buffer then Raise closed_file_error
  else Return (stream_text buffer).

(** Calls the orchestrator makes to its collaborators, in order. *)
Inductive event : Type :=
| CallCheckSecurity (code : pystr)
| CallPreprocess (code : pystr)
| CallCreateGlobals
| CallCompile (text : pystr)
| CallExec (text : pystr).

(** Process state: the wall clock read by [time.time()] (in
    milliseconds), the store of dictionary objects, and the record of
    calls made so far. *)
Record world : Type := MkWorld {
  clock : N;
  heap : gmap loc (gmap pystr value);
  calls : list event
}.

(** What running a code object against a globals and a locals
    dictionary does, with a given stream in the place of the standard
    streams: the bindings it leaves in both dictionaries, the state in
    which it leaves the stream, and the time it takes; it ends
    normally, ends by raising, or does not end. *)
Record effect : Type := MkEffect {
  eff_globals : gmap pystr value;
  eff_locals : gmap pystr value;
  eff_stream : stream;
  eff_elapsed : N
}.

Inductive behaviour : Type :=
| Completes (f : effect)
| Raises (e : exn) (f : effect)
| Diverges.

Scheme All for list.

(** Abstract syntax as [ast.NodeVisitor] sees it: the four node classes
    the analyzer has a visitor for, [ast.Name] (inspected by
    [visit_Call]), and any other node with its child nodes in field
    order.  An import statement carries the [name] of each of its
    aliases; a call carries its callee and then its remaining children
    (arguments, then keywords); an attribute access carries the object
    expression and the attribute name. *)
Inductive node : Type :=
| Import (names : list pystr)
| ImportFrom (module : option pystr) (names : list pystr)
| Call (func : node) (args : list node)
| Attribute (value : node) (attr : pystr)
| Name (id : pystr)
| Node (children : list node).

Inductive parse_result : Type :=
| Parsed (tree : node)
| ParseError (e : exn).

(** The text-repair collaborator [utils.string_escape_handler];
    [None] stands for a call that raises. *)
Record StringEscapeHandler : Type := MkStringEscapeHandler {
  validate_string : pystr -> option bool;
  fix_string_issues : pystr -> option (bool * pystr)
}.

Record PyHost : Type := MkPyHost {
  (** [ast.parse(code)] *)
  ast_parse : pystr -> parse_result;
  (** [compile(text, '<string>', 'exec')]: [None] when it yields a code
      object, otherwise the exception raised *)
  py_compile : pystr -> option exn;
  (** [exec(code_object, globals, locals)] while the standard streams
      are redirected to the given stream *)
  py_exec : pystr -> gmap pystr value -> gmap pystr value -> stream
            -> behaviour;
  (** [traceback.format_exc()] inside a handler of the exception *)
  format_exc : exn -> pystr;
  (** [dir(builtins)] and [getattr(builtins, name)] *)
  dir_builtins : list pystr;
  getattr_builtins : pystr -> value;
  (** [__import__(name)], [None] on [ImportError] *)
  import_module : pystr -> option value;
  (** [from utils.string_escape_handler import ...], [None] on
      [ImportError] *)
  string_escape_handler : option StringEscapeHandler;
  (** [resource.getrusage(resource.RUSAGE_SELF).ru_maxrss] and
      [sys.platform == 'darwin'] *)
  ru_maxrss : completion Z;
  platform_is_darwin : bool;
  (** [core.exceptions], whose source is not part of this module: the
      classes the exceptions imported from it inherit from, and how an
      instance of the named class renders its arguments *)
  core_bases : list pystr;
  core_str : pystr -> list value -> pystr
}.

(** An instance of the class [cls] of [core.exceptions] built from [args]. *)
Definition core_exception (host : PyHost) (cls : pystr) (args : list value) : exn :=
  {| exn_mro := cls :: core_bases host;
     exn_args := args;
     exn_str := core_str host cls args;
     exn_str_raises := None |}.

(** Outcome of a call from the caller's side. *)
Inductive result (A : Type) : Type :=
| Returned (a : A) (w : world)
| Propagated (e : exn) (w : world)
| Hangs.
Arguments Returned {A} a w.
Arguments Propagated {A} e w.
Arguments Hangs {A}.

Definition log (ev : event) (w : world) : world :=
  {| clock := clock w; heap := heap w; calls := calls w ++ [ev] |}.

Definition tick (dt : N) (w : world) : world :=
  {| clock := clock w + dt; heap := heap w; calls := calls w |}.

(** A new dictionary object with the given bindings. *)
Definition new_dict (d : gmap pystr value) (w : world) : loc * world :=
  let l := fresh (dom (heap w)) in
  (l, {| clock := clock w; heap := <[l := d]> (heap w); calls := calls w |}).

Arguments new_dict : simpl never.

Definition read_dict (l : loc) (w : world) : gmap pystr value :=
  default ∅ (heap w !! l).

Definition write_dict (l : loc) (d : gmap pystr value) (w : world) : world :=
  {| clock := clock w; heap := <[l := d]> (heap w); calls := calls w |}.

End Host.
Export Host.

(** ** [class ASTSecurityAnalyzer(ast.NodeVisitor)] *)
Module Analyzer.

(** Instance attributes set by [__init__]. *)
Record ASTSecurityAnalyzer : Type := MkAnalyzer {
  violations : list pystr;
  imports : gset pystr;
  function_calls : gset pystr;
  attribute_accesses : gset pystr;
  dangerous_builtins : gset pystr;
  dangerous_modules : gset pystr;
  allowed_modules : gset pystr;
  dangerous_attributes : gset pystr
}.

(** [__init__] *)
Definition init : ASTSecurityAnalyzer :=
  {| violations := []; imports := ∅; function_calls := ∅;
     attribute_accesses := ∅; dangerous_builtins := ∅;
     dangerous_modules := ∅; allowed_modules := ∅;
     dangerous_attributes := ∅ |}.

(** [self.imports.add(name)] and its two siblings. *)
Definition add_import (name : pystr) (self : ASTSecurityAnalyzer) :=
  {| violations := violations self;
     imports := {[name]} ∪ imports self;
     function_calls := function_calls self;
     attribute_accesses := attribute_accesses self;
     dangerous_builtins := dangerous_builtins self;
     dangerous_modules := dangerous_modules self;
     allowed_modules := allowed_modules self;
     dangerous_attributes := dangerous_attributes self |}.

Definition add_function_call (name : pystr) (self : ASTSecurityAnalyzer) :=
  {| violations := violations self;
     imports := imports self;
     function_calls := {[name]} ∪ function_calls self;
     attribute_accesses := attribute_accesses self;
     dangerous_builtins := dangerous_builtins self;
     dangerous_modules := dangerous_modules self;
     allowed_modules := allowed_modules self;
     dangerous_attributes := dangerous_attributes self |}.

Definition add_attribute_access (name : pystr) (self : ASTSecurityAnalyzer) :=
  {| violations := violations self;
     imports := imports self;
     function_calls := function_calls self;
     attribute_accesses := {[name]} ∪ attribute_accesses self;
     dangerous_builtins := dangerous_builtins self;
     dangerous_modules := dangerous_modules self;
     allowed_modules := allowed_modules self;
     dangerous_attributes := dangerous_attributes self |}.

(** [self.visit(node)]: dispatch to [visit_Import], [visit_ImportFrom],
    [visit_Call], [visit_Attribute], or to [generic_visit], which visits
    the children in order.  The children of an import statement are its
    [alias] nodes, which have no visitor and no children of their own.
    The walk is modelled as unbounded recursion over the tree; the
    interpreter's bound on call depth is not represented. *)
Fixpoint visit (n : node) (self : ASTSecurityAnalyzer) : ASTSecurityAnalyzer :=
  match n with
  | Import names =>
      fold_left (fun self name => add_import (split_dot_head name) self)
                names self
  | ImportFrom module _ =>
      match module with
      | Some m => if truthy m then add_import (split_dot_head m) self else self
      | None => self
      end
  | Call func args =>
      let self :=
        match func with
        | Name id => add_function_call id self
        | _ => self
        end in
      fold_left (fun self child => visit child self) args (visit func self)
  | Attribute value attr =>
      visit value (add_attribute_access attr self)
  | Name _ => self
  | Node children =>
      fold_left (fun self child => visit child self) children self
  end.

(** The dictionary [analyze] returns.  [list(self.imports)] enumerates a
    set in an order Python leaves unspecified, so the three collection
    entries are represented by the sets they enumerate; the key
    ['syntax_error'] is present only in the second dictionary. *)
Record report : Type := MkReport {
  safe : bool;
  report_violations : list pystr;
  syntax_error : option pystr;
  report_imports : gset pystr;
  report_function_calls : gset pystr;
  report_attribute_accesses : gset pystr;
  risk_level : pystr;
  recommendations : list pystr
}.

(** [analyze(self, code)]: the value returned or the exception raised,
    and the instance afterwards.  The exception caught is one the
    parser has made, an instance of the built-in [SyntaxError] or of a
    built-in subclass, and [str] of such an instance returns its text. *)
Definition analyze (host : PyHost) (self : ASTSecurityAnalyzer) (code : pystr)
  : completion report * ASTSecurityAnalyzer :=
  match ast_parse host code with
  | Parsed tree =>
      let self := visit tree self in
      (Return {| safe := true;
                 report_violations := [];
                 syntax_error := None;
                 report_imports := imports self;
                 report_function_calls := function_calls self;
                 report_attribute_accesses := attribute_accesses self;
                 risk_level := py "none";
                 recommendations := [] |}, self)
  | ParseError e =>
      if isinstance e (py "SyntaxError") then
        (Return {| safe := true;
                   report_violations := [];
                   syntax_error := Some (exn_str e);
                   report_imports := ∅;
                   report_function_calls := ∅;
                   report_attribute_accesses := ∅;
                   risk_level := py "none";
                   recommendations := [] |}, self)
      else (Raise e, self)
  end.

End Analyzer.

(** ** [class ResourceMonitor] *)
Module Monitor.

Record ResourceMonitor : Type := MkMonitor {
  max_memory : Z;
  max_execution_time : Z;
  start_time : option N;
  timeout_occurred : bool
}.

(** [__init__(self, max_memory_mb=2048, max_execution_time=120)] *)
Definition init (max_memory_mb max_execution_time : Z) : ResourceMonitor :=
  {| max_memory := max_memory_mb * 1024 * 1024;
     max_execution_time := max_execution_time;
     start_time := None;
     timeout_occurred := false |}.

(** The statements inside the [try] of [check_memory_usage].  The test
    [memory_usage_bytes > self.max_memory * 1.5] and the two
    conversions [int(x / (1024*1024))] are computed by Python in
    floating point; they are stated here over the integers, with which
    they agree below 2^53. *)
Definition sample_memory (host : PyHost) (self : ResourceMonitor)
  : completion unit :=
  match ru_maxrss host with
  | Raise e => Raise e
  | Return memory_usage =>
      let memory_usage_bytes :=
        if platform_is_darwin host then memory_usage
        else (memory_usage * 1024)%Z in
      if (3 * max_memory self <? 2 * memory_usage_bytes)%Z then
        let limit_mb := (max_memory self ÷ (1024 * 1024))%Z in
        let usage_mb := (memory_usage_bytes ÷ (1024 * 1024))%Z in
        Raise (core_exception host (py "MemoryLimitError")
                              [VInt limit_mb; VInt usage_mb])
      else Return tt
  end.

(** [check_memory_usage(self)]: the [try] above with its clause
    [except Exception as e: logger.debug(...)].  What the clause
    renders for the log is the limit error or an exception made by
    [getrusage], whose text the host gives. *)
Definition check_memory_usage (host : PyHost) (self : ResourceMonitor)
  : completion unit :=
  match sample_memory host self with
  | Return tt => Return tt
  | Raise e => if isinstance e (py "Exception") then Return tt else Raise e
  end.

(** [timeout_handler(self, signum, frame)] *)
Definition timeout_handler (host : PyHost) (self : ResourceMonitor)
  : exn * ResourceMonitor :=
  (core_exception host (py "ExecutionTimeoutError")
                  [VInt (max_execution_time self); VStr (py "code execution")],
   {| max_memory := max_memory self;
      max_execution_time := max_execution_time self;
      start_time := start_time self;
      timeout_occurred := true |}).

(** The process-wide state [signal.signal] and [signal.alarm] act on:
    the handler installed for SIGALRM and the instant at which the
    pending alarm, if any, is delivered. *)
Inductive handler : Type :=
| HandlerDefault
| HandlerTimeout
| HandlerOther (name : pystr).

Record signals : Type := MkSignals {
  sigalrm : handler;
  alarm : option N
}.

(** What [signal.alarm] raises when its argument does not fit a C
    [int] (the message is that of CPython 3.11). *)
Definition alarm_overflow : exn :=
  {| exn_mro := List.map py ["OverflowError"; "ArithmeticError"; "Exception";
                             "BaseException"; "object"]%string;
     exn_args := [VStr (py "Python int too large to convert to C int")];
     exn_str := py "Python int too large to convert to C int";
     exn_str_raises := None |}.

(** [signal.alarm(seconds)].  The argument is converted to a C [int],
    which fails outside its range, and handed to the system call, which
    takes it as an [unsigned int]: a negative number of seconds wraps
    around.  Zero cancels the pending alarm. *)
Definition signal_alarm (now : N) (seconds : Z) (sig : signals)
  : completion signals :=
  if (seconds <? -2147483648)%Z || (2147483647 <? seconds)%Z then
    Raise alarm_overflow
  else
    let seconds := (seconds mod 4294967296)%Z in
    Return {| sigalrm := sigalrm sig;
              alarm := if (0 <? seconds)%Z
                       then Some (now + 1000 * Z.to_N seconds)
                       else None |}.

(** [monitor_execution(self)], a context manager called from the main
    thread: the statements before [yield], and the [finally] clause
    after it.  When [signal.alarm] raises, the handler has been
    installed already and the [try] has not been entered: the monitor
    and the signal state are returned as they are at that point. *)
Definition monitor_enter (self : ResourceMonitor) (now : N) (sig : signals)
  : ResourceMonitor * signals * completion handler :=
  let self := {| max_memory := max_memory self;
                 max_execution_time := max_execution_time self;
                 start_time := Some now;
                 timeout_occurred := false |} in
  let old_handler := sigalrm sig in
  let sig := {| sigalrm := HandlerTimeout; alarm := alarm sig |} in
  match signal_alarm now (max_execution_time self) sig with
  | Return sig => (self, sig, Return old_handler)
  | Raise e => (self, sig, Raise e)
  end.

Definition monitor_exit (now : N) (old_handler : handler) (sig : signals)
  : completion signals :=
  match signal_alarm now 0 sig with
  | Return sig => Return {| sigalrm := old_handler; alarm := alarm sig |}
  | Raise e => Raise e
  end.

(** The [with] statement as a whole.  Its body is handed the monitor
    (the value of [yield self]), the signal state and the time; it
    gives its result, which may be an exception on its way out, the
    monitor and the signal state as it leaves them, and the time at
    which it ends.  The [finally] clause runs in either case; the body
    does not run when entering has raised. *)
Definition monitor_execution {A : Type} (self : ResourceMonitor)
    (sig : signals)
    (body : ResourceMonitor -> signals -> N
            -> completion A * ResourceMonitor * signals * N)
    (now : N) : completion A * ResourceMonitor * signals :=
  match monitor_enter self now sig with
  | (self, sig, Raise e) => (Raise e, self, sig)
  | (self, sig, Return old_handler) =>
      let '(a, self, sig, now) := body self sig now in
      match monitor_exit now old_handler sig with
      | Return sig => (a, self, sig)
      | Raise e => (Raise e, self, sig)
      end
  end.

End Monitor.

(** ** [class SecureCodeExecutor] *)
Module Executor.

Import Analyzer Monitor.

Record SecureCodeExecutor : Type := MkExecutor {
  max_memory_mb : Z;
  max_execution_time : Z;
  enable_ast_analysis : bool;
  enable_string_validation : bool;
  analyzer : ASTSecurityAnalyzer;
  monitor : ResourceMonitor;
  safe_builtins : gset pystr;
  safe_modules : gmap pystr value
}.

Definition safe_builtins_names : list pystr := List.map py
  ["abs"; "all"; "any"; "ascii"; "bin"; "bool"; "bytearray"; "bytes";
   "callable"; "chr"; "classmethod"; "compile"; "complex"; "delattr";
   "dict"; "dir"; "divmod"; "enumerate"; "eval"; "exec"; "filter";
   "float"; "format"; "frozenset"; "getattr"; "globals"; "hasattr";
   "hash"; "help"; "hex"; "id"; "input"; "int"; "isinstance";
   "issubclass"; "iter"; "len"; "list"; "locals"; "map"; "max";
   "memoryview"; "min"; "next"; "object"; "oct"; "open"; "ord";
   "pow"; "print"; "property"; "range"; "repr"; "reversed"; "round";
   "set"; "setattr"; "slice"; "sorted"; "staticmethod"; "str"; "sum";
   "super"; "tuple"; "type"; "vars"; "zip"; "__import__"]%string.

Definition common_modules : list pystr := List.map py
  ["pandas"; "numpy"; "matplotlib"; "seaborn"; "plotly"; "scipy";
   "sklearn"; "statsmodels"; "openpyxl"; "xlrd"; "xlsxwriter";
   "os"; "sys"; "json"; "csv"; "datetime"; "time"; "math"; "statistics";
   "random"; "re"; "collections"; "itertools"; "functools"; "operator";
   "pathlib"; "urllib"; "requests"; "http"; "base64"; "hashlib";
   "logging"; "warnings"; "traceback"; "inspect"; "pickle"; "io";
   "subprocess"; "shutil"; "glob"; "fnmatch"; "tempfile"; "zipfile";
   "tarfile"; "gzip"; "bz2"; "lzma"; "sqlite3"; "configparser";
   "argparse"; "getopt"; "textwrap"; "string"; "unicodedata";
   "codecs"; "locale"; "calendar"; "heapq"; "bisect"; "array";
   "weakref"; "copy"; "pprint"; "reprlib"; "enum"; "decimal";
   "fractions"; "contextlib"; "abc"; "numbers"; "cmath"; "struct";
   "difflib"; "html"; "xml"; "email"; "mimetypes"; "quopri";
   "uu"; "binascii"; "keyword"; "token"; "tokenize"; "ast";
   "symtable"; "symbol"; "dis"; "pickletools"]%string.

(** The module objects bound at import time by [import pandas as pd]
    and [import numpy as np]. *)
Definition pd (host : PyHost) : value :=
  default (VObj (py "pandas")) (import_module host (py "pandas")).
Definition np (host : PyHost) : value :=
  default (VObj (py "numpy")) (import_module host (py "numpy")).

(** One turn of the loop over [common_modules] in [__init__]. *)
Definition preload (host : PyHost) (safe_modules : gmap pystr value)
    (module_name : pystr) : gmap pystr value :=
  if eqb module_name (py "pandas") then
    <[py "pd" := pd host]> (<[py "pandas" := pd host]> safe_modules)
  else if eqb module_name (py "numpy") then
    <[py "np" := np host]> (<[py "numpy" := np host]> safe_modules)
  else
    match import_module host module_name with
    | Some module => <[module_name := module]> safe_modules
    | None => safe_modules
    end.

(** [__init__(self, max_memory_mb=2048, max_execution_time=120,
    enable_ast_analysis=False, enable_string_validation=True)] *)
Definition init (host : PyHost) (max_memory_mb max_execution_time : Z)
    (enable_ast_analysis enable_string_validation : bool) : SecureCodeExecutor :=
  let safe_modules := fold_left (preload host) common_modules ∅ in
  let safe_modules :=
    match import_module host (py "tabulate") with
    | Some tabulate => <[py "tabulate" := tabulate]> safe_modules
    | None => safe_modules
    end in
  {| max_memory_mb := max_memory_mb;
     max_execution_time := max_execution_time;
     enable_ast_analysis := enable_ast_analysis;
     enable_string_validation := enable_string_validation;
     analyzer := Analyzer.init;
     monitor := Monitor.init max_memory_mb max_execution_time;
     safe_builtins := list_to_set safe_builtins_names;
     safe_modules := safe_modules |}.

(** The dictionary [safe_builtins_dict] that [create_safe_globals]
    fills from [dir(builtins)]. *)
Definition safe_builtins_dict (host : PyHost) : gmap pystr value :=
  let d :=
    fold_left
      (fun d name =>
         if negb (startswith name (py "_")) || eqb name (py "__import__")
         then <[name := getattr_builtins host name]> d else d)
      (dir_builtins host) (∅ : gmap pystr value) in
  let d := <[py "print" := getattr_builtins host (py "print")]> d in
  let d := <[py "open" := getattr_builtins host (py "open")]> d in
  let d := <[py "exec" := getattr_builtins host (py "exec")]> d in
  let d := <[py "eval" := getattr_builtins host (py "eval")]> d in
  <[py "__import__" := VObj (py "unrestricted_import")]> d.

(** [create_safe_globals(self)]: two new dictionaries, the builtins and
    the globals that refer to them. *)
Definition create_safe_globals (host : PyHost) (self : SecureCodeExecutor)
    (w : world) : loc * world :=
  let w := log CallCreateGlobals w in
  let '(builtins_ref, w) := new_dict (safe_builtins_dict host) w in
  let safe_globals : gmap pystr value :=
    {[py "__builtins__" := VRef builtins_ref]} in
  (* safe_globals.update(self.safe_modules) *)
  new_dict (safe_modules self ∪ safe_globals) w.

(** The pattern of [_preprocess_code_original] tried at the head of
    [s]: the letters d, f, an opening bracket, a quotation mark (single
    or double), any run of characters that are not quotation marks, the
    same mark again and a closing bracket.  Returns the mark, the text
    between the marks and the text after the match.  The run is greedy
    and stops at the first quotation mark of either kind, which must
    then be the opening one. *)
Definition is_quote (c : N) : bool := (c =? 34) || (c =? 39).

Fixpoint span_unquoted (s : pystr) : pystr * pystr :=
  match s with
  | [] => ([], [])
  | c :: s' =>
      if is_quote c then ([], s)
      else let '(inner, rest) := span_unquoted s' in (c :: inner, rest)
  end.

Definition match_df (s : pystr) : option (N * pystr * pystr) :=
  if startswith s (py "df[") then
    match drop 3 s with
    | q :: t =>
        if is_quote q then
          let '(inner, t') := span_unquoted t in
          match t' with
          | q' :: c :: rest =>
              if (q' =? q) && (c =? 93) then Some (q, inner, rest) else None
          | _ => None
          end
        else None
    | [] => None
    end
  else None.

(** [re.sub(pattern, lambda m: f'df[{m.group(1)}{m.group(2).strip()}{m.group(1)}]', s)]:
    left to right, every match replaced, every other character copied.
    Each turn consumes at least one character, so [length s] turns
    suffice. *)
Fixpoint re_sub_df (fuel : nat) (s : pystr) : pystr :=
  match fuel with
  | O => s
  | S fuel' =>
      match match_df s with
      | Some (q, inner, rest) =>
          py "df[" ++ [q] ++ strip inner ++ [q] ++ py "]" ++ re_sub_df fuel' rest
      | None =>
          match s with
          | [] => []
          | c :: s' => c :: re_sub_df fuel' s'
          end
      end
  end.

(** [_preprocess_code_original(self, code)] *)
Definition _preprocess_code_original (code : pystr) : pystr :=
  re_sub_df (length code) code.

(** [_preprocess_code_with_string_handling(self, code)] *)
Definition _preprocess_code_with_string_handling (host : PyHost)
    (code : pystr) : pystr :=
  match string_escape_handler host with
  | None => (* except ImportError *) _preprocess_code_original code
  | Some h =>
      match validate_string h code with
      | None => (* except Exception *) _preprocess_code_original code
      | Some true => _preprocess_code_original code
      | Some false =>
          match fix_string_issues h code with
          | None => (* except Exception *) _preprocess_code_original code
          | Some (true, fixed_code) => _preprocess_code_original fixed_code
          | Some (false, _) => _preprocess_code_original code
          end
      end
  end.

(** [_check_code_security(self, code)] *)
Record security_result : Type := MkSecurityResult {
  allowed : bool;
  warnings : list pystr;
  reason : pystr
}.

Definition _check_code_security (code : pystr) : security_result :=
  {| allowed := true;
     warnings := [];
     reason := py "完全开放模式：允许所有代码执行" |}.

(** The dictionary [execute_code] returns.  A success carries the keys
    output, result, execution_time and locals; a failure the keys error
    and message and, except for the empty-code failure, the four keys of
    [failure_details]. *)
Record failure_details : Type := MkDetails {
  execution_time : N;
  suggestion : pystr;
  output : pystr;
  traceback : pystr
}.

Inductive outcome : Type :=
| Success (output : pystr) (result : value) (execution_time : N) (locals : loc)
| Failure (error message : pystr) (details : option failure_details).

(** ['success'] *)
Definition success (o : outcome) : bool :=
  match o with Success _ _ _ _ => true | Failure _ _ _ => false end.

(** One pass through [compile] and [exec] inside the [with] block: it
    ends normally, ends by raising, or does not end.  [output] is the
    state of [output_buffer] afterwards. *)
Inductive attempt : Type :=
| Done (output : stream) (w : world)
| Failed (e : exn) (output : stream) (w : world)
| Stuck.

(** A snippet acts on the store through the two dictionaries it is
    given and through nothing else: its bindings are written to them,
    and time passes.  Objects that values refer to are opaque here, so
    changes made inside such objects are not represented. *)
Definition apply_effect (safe_globals safe_locals : loc) (f : effect)
    (w : world) : world :=
  tick (eff_elapsed f)
       (write_dict safe_locals (eff_locals f)
                   (write_dict safe_globals (eff_globals f) w)).

(** [compiled_code = compile(text, '<string>', 'exec')] followed by
    [exec(compiled_code, safe_globals, safe_locals)], with [output] the
    state of [output_buffer] when the pass begins. *)
Definition compile_and_exec (host : PyHost) (text : pystr)
    (safe_globals safe_locals : loc) (output : stream) (w : world) : attempt :=
  let w := log (CallCompile text) w in
  match py_compile host text with
  | Some e => Failed e output w
  | None =>
      let w := log (CallExec text) w in
      match py_exec host text (read_dict safe_globals w)
                    (read_dict safe_locals w) output with
      | Completes f =>
          Done (eff_stream f) (apply_effect safe_globals safe_locals f w)
      | Raises e f =>
          Failed e (eff_stream f) (apply_effect safe_globals safe_locals f w)
      | Diverges => Stuck
      end
  end.

(** The inner [try] of [execute_code] with its [except Exception]
    clause. *)
Definition run_with_fallback (host : PyHost) (processed_code code : pystr)
    (safe_globals safe_locals : loc) (output : stream) (w : world) : attempt :=
  match compile_and_exec host processed_code safe_globals safe_locals output w with
  | Failed e output w =>
      if isinstance e (py "Exception") then
        if negb (eqb processed_code code) then
          compile_and_exec host code safe_globals safe_locals output w
        else (* raise *) Failed e output w
      else Failed e output w
  | r => r
  end.

(** The body of every [except] clause but the last.  The f-string of
    the log call and the entry ['message'] of the result dictionary
    take [str(e)], the entry ['output'] takes
    [output_buffer.getvalue()]; an exception raised by either leaves
    [execute_code], as the statement is inside a handler. *)
Definition failure (host : PyHost) (error : string) (suggestion : string)
    (e : exn) (start_time : N) (output_buffer : stream) (w : world)
  : result outcome :=
  let execution_time := clock w - start_time in
  match str_of e with
  | Raise e' => Propagated e' w
  | Return message =>
      match getvalue output_buffer with
      | Raise e' => Propagated e' w
      | Return output =>
          Returned (Failure (py error) message
                      (Some {| execution_time := execution_time;
                               suggestion := py suggestion;
                               output := output;
                               traceback := format_exc host e |})) w
      end
  end.

(** The suggestion chosen by the last clause, [except Exception], from
    the text [str(e)] has returned. *)
Definition generic_suggestion (message : pystr) : pystr :=
  let text := lower message in
  if contains (py "pandas") text then
    py "pandas相关错误，检查DataFrame操作和列名"
  else if contains (py "numpy") text then
    py "numpy相关错误，检查数组操作和数据类型"
  else if contains (py "permission") text then
    py "权限错误，检查文件访问权限"
  else if contains (py "memory") text then
    py "内存不足，尝试处理较小的数据集"
  else if contains (py "timeout") text then
    py "执行超时，优化代码性能或增加超时时间"
  else py "代码执行失败，请检查代码逻辑和语法".

(** The [except] clauses of the outer [try], in order.  An exception
    that matches none of them leaves [execute_code], and so does an
    exception raised inside the clause that matches. *)
Definition handle (host : PyHost) (start_time : N) (e : exn)
    (output_buffer : stream) (w : world) : result outcome :=
  if isinstance e (py "SyntaxError") then
    failure host "SyntaxError"
            "检查代码语法，特别是字符串引号和转义字符"
            e start_time output_buffer w
  else if isinstance e (py "NameError") then
    failure host "NameError"
            "检查变量名拼写，确保变量已正确定义"
            e start_time output_buffer w
  else if isinstance e (py "KeyError") then
    failure host "KeyError"
            "检查字典键名或DataFrame列名是否存在"
            e start_time output_buffer w
  else if isinstance e (py "AttributeError") then
    failure host "AttributeError"
            "检查对象是否具有所调用的属性或方法"
            e start_time output_buffer w
  else if isinstance e (py "ImportError") then
    failure host "ImportError"
            "检查模块是否已安装，使用pip install安装缺失的模块"
            e start_time output_buffer w
  else if isinstance e (py "ValueError") then
    failure host "ValueError"
            "检查数据类型转换和数值范围是否正确"
            e start_time output_buffer w
  else if isinstance e (py "TypeError") then
    failure host "TypeError"
            "检查函数参数类型和数量是否正确"
            e start_time output_buffer w
  else if isinstance e (py "IndexError") then
    failure host "IndexError"
            "检查列表或数组索引是否超出范围"
            e start_time output_buffer w
  else if isinstance e (py "Exception") then
    let execution_time := clock w - start_time in
    let error_type := type_name e in
    match str_of e with
    | Raise e' => Propagated e' w
    | Return message =>
        let suggestion := generic_suggestion message in
        match getvalue output_buffer with
        | Raise e' => Propagated e' w
        | Return output =>
            Returned (Failure error_type message
                        (Some {| execution_time := execution_time;
                                 suggestion := suggestion;
                                 output := output;
                                 traceback := format_exc host e |})) w
        end
    end
  else Propagated e w.

(** [if context: safe_locals.update(context)], with [safe_locals] the
    dictionary just created and [context] the caller's dictionary or
    [None]. *)
Definition add_context (safe_locals : loc) (context : option loc)
    (w : world) : world :=
  match context with
  | None => w
  | Some c =>
      if bool_decide (read_dict c w = ∅) then w
      else write_dict safe_locals (read_dict c w ∪ read_dict safe_locals w) w
  end.

(** The execution environment of one run: [safe_globals =
    self.create_safe_globals()], [safe_locals = {}], and the caller's
    context added to the latter. *)
Definition build_namespaces (host : PyHost) (self : SecureCodeExecutor)
    (context : option loc) (w : world) : loc * loc * world :=
  let '(safe_globals, w) := create_safe_globals host self w in
  let '(safe_locals, w) := new_dict ∅ w in
  (safe_globals, safe_locals, add_context safe_locals context w).

(** [{k: v for k, v in safe_locals.items() if not k.startswith('_')}] *)
Definition public_bindings (d : gmap pystr value) : gmap pystr value :=
  filter (fun kv => startswith kv.1 (py "_") = false) d.

(** [execute_code(self, code, context=None)].  Logging is left out but
    for the text it formats; the statements between the check for empty
    code and the [with] block cannot raise, so no handler runs before
    [output_buffer] is bound.  After the [with] block,
    [output_buffer.getvalue()] is still inside the outer [try]: what it
    raises goes to the handlers. *)
Definition execute_code (host : PyHost) (self : SecureCodeExecutor)
    (code : pystr) (context : option loc) (w : world) : result outcome :=
  let start_time := clock w in
  if negb (truthy code) || negb (truthy (strip code)) then
    Returned (Failure (py "EmptyCode") (py "代码为空") None) w
  else
    let w := log (CallCheckSecurity code) w in
    let security_result := _check_code_security code in
    let w := log (CallPreprocess code) w in
    let processed_code := _preprocess_code_with_string_handling host code in
    let '(safe_globals, safe_locals, w) := build_namespaces host self context w in
    let output_buffer := StringIO in
    match run_with_fallback host processed_code code
                            safe_globals safe_locals output_buffer w with
    | Done output_buffer w =>
        match getvalue output_buffer with
        | Return output =>
            let result :=
              default VNone (read_dict safe_locals w !! py "result") in
            let execution_time := clock w - start_time in
            let '(locals, w) :=
              new_dict (public_bindings (read_dict safe_locals w)) w in
            Returned (Success output result execution_time locals) w
        | Raise e => handle host start_time e output_buffer w
        end
    | Failed e output_buffer w => handle host start_time e output_buffer w
    | Stuck => Hangs
    end.

(** [execute_safe_code(code, context, max_memory_mb, max_execution_time)] *)
Definition execute_safe_code (host : PyHost) (code : pystr)
    (context : option loc) (max_memory_mb max_execution_time : Z)
    (w : world) : result outcome :=
  execute_code host (init host max_memory_mb max_execution_time false true)
               code context w.

End Executor.

(** ** A host for the examples

    What CPython does on the handful of texts used as examples below.
    Texts outside the tables are not used; the tables reject them as
    syntax errors. *)
Module Sample.

Import Executor.

Definition exception (mro : list string) (message : string) : exn :=
  {| exn_mro := List.map py mro;
     exn_args := [VStr (py message)];
     exn_str := py message;
     exn_str_raises := None |}.

Definition SystemExit : exn :=
  {| exn_mro := List.map py ["SystemExit"; "BaseException"; "object"]%string;
     exn_args := [];
     exn_str := [];
     exn_str_raises := None |}.

Definition SyntaxError (message : string) : exn :=
  exception ["SyntaxError"; "Exception"; "BaseException"; "object"] message.

Definition NameError (message : string) : exn :=
  exception ["NameError"; "Exception"; "BaseException"; "object"] message.

Definition ZeroDivisionError : exn :=
  exception ["ZeroDivisionError"; "ArithmeticError"; "Exception";
             "BaseException"; "object"] "division by zero".

Definition UnicodeEncodeError : exn :=
  exception ["UnicodeEncodeError"; "UnicodeError"; "ValueError"; "Exception";
             "BaseException"; "object"]
            "'utf-8' codec can't encode character: surrogates not allowed".

(** A lone surrogate cannot be encoded, and the parser encodes its input
    before reading it. *)
Definition is_surrogate (c : N) : bool := (55296 <=? c) && (c <=? 57343).

Definition parse (code : pystr) : parse_result :=
  if existsb is_surrogate code then ParseError UnicodeEncodeError
  else if eqb code (py "import os") then
    Parsed (Node [Import [py "os"]])
  else if eqb code (py "import os.path; print(len(sys.argv))") then
    Parsed (Node [Import [py "os.path"];
                  Node [Call (Name (py "print"))
                             [Call (Name (py "len"))
                                   [Attribute (Name (py "sys")) (py "argv")]]]])
  else if eqb code (py "x = 1") then
    Parsed (Node [Node [Name (py "x"); Node []]])
  else if eqb code (py "(") then
    ParseError (SyntaxError "'(' was never closed (<unknown>, line 1)")
  else ParseError (SyntaxError "invalid syntax (<unknown>, line 1)").

Definition known_texts : list pystr := List.map py
  ["while True: pass"; "raise SystemExit"; "result = 2 + 2"; "x = 1/0";
   "import time; time.sleep(5)"; "_tmp = 1; y = _tmp + 1";
   "df[' a ']"; "df['a']";
   "raise SystemExit # df[' a ']"; "raise SystemExit # df['a']";
   "import sys; sys.stdout.close()";
   "raise type('E', (Exception,), {'__str__': lambda s: 1/0})()"]%string.

Definition compile (text : pystr) : option exn :=
  if bool_decide (text ∈ known_texts) then None
  else Some (SyntaxError "invalid syntax (<string>, line 1)").

(** An instance of a class made by the snippet, a subclass of
    [Exception] whose [__str__] divides by zero. *)
Definition Unprintable : exn :=
  {| exn_mro := List.map py ["E"; "Exception"; "BaseException"; "object"]%string;
     exn_args := [];
     exn_str := [];
     exn_str_raises := Some ZeroDivisionError |}.

(** [print] and [close] on an open stream. *)
Definition printed (text : pystr) (out : stream) : stream :=
  {| stream_text := stream_text out ++ text; stream_closed := stream_closed out |}.

Definition closed (out : stream) : stream :=
  {| stream_text := stream_text out; stream_closed := true |}.

Definition unchanged (g l : gmap pystr value) (out : stream) : effect :=
  {| eff_globals := g; eff_locals := l; eff_stream := out; eff_elapsed := 0 |}.

Definition binds (g l : gmap pystr value) (out : stream) (elapsed : N)
  : effect :=
  {| eff_globals := g; eff_locals := l; eff_stream := out;
     eff_elapsed := elapsed |}.

Definition exec (text : pystr) (g l : gmap pystr value) (out : stream)
  : behaviour :=
  if eqb text (py "while True: pass") then Diverges
  else if eqb text (py "raise SystemExit") then
    Raises SystemExit (unchanged g l out)
  else if eqb text (py "raise SystemExit # df[' a ']") then
    Raises SystemExit (unchanged g l out)
  else if eqb text (py "raise SystemExit # df['a']") then
    Raises SystemExit (unchanged g l out)
  else if eqb text (py "result = 2 + 2") then
    Completes (binds g (<[py "result" := VInt 4]> l) out 1)
  else if eqb text (py "x = 1/0") then
    Raises ZeroDivisionError (unchanged g l out)
  else if eqb text (py "import time; time.sleep(5)") then
    Completes (binds g (<[py "time" := VObj (py "time")]> l) out 5000)
  else if eqb text (py "_tmp = 1; y = _tmp + 1") then
    Completes (binds g (<[py "y" := VInt 2]> (<[py "_tmp" := VInt 1]> l)) out 1)
  else if eqb text (py "df[' a ']") then
    Raises (NameError "name 'df' is not defined") (unchanged g l out)
  else if eqb text (py "df['a']") then
    Raises (NameError "name 'df' is not defined") (unchanged g l out)
  else if eqb text (py "import sys; sys.stdout.close()") then
    Completes (binds g (<[py "sys" := VObj (py "sys")]> l) (closed out) 0)
  else if eqb text
            (py "raise type('E', (Exception,), {'__str__': lambda s: 1/0})()")
  then Raises Unprintable (unchanged g l out)
  else Completes (unchanged g l out).

Definition host : PyHost :=
  {| ast_parse := parse;
     py_compile := compile;
     py_exec := exec;
     format_exc := fun e => py "Traceback (most recent call last): " ++ exn_str e;
     dir_builtins := List.map py ["__import__"; "__name__"; "len"; "print"]%string;
     getattr_builtins := VObj;
     import_module := fun name =>
       if bool_decide (name ∈ List.map py ["pandas"; "numpy"; "os"; "sys"; "time"]%string)
       then Some (VObj name) else None;
     string_escape_handler := None;
     ru_maxrss := Return 4096%Z;
     platform_is_darwin := false;
     core_bases := List.map py ["Exception"; "BaseException"; "object"]%string;
     core_str := fun cls _ => cls |}.

(** A default-configured executor, an empty process state, and one in
    which the caller holds a dictionary. *)
Definition executor : SecureCodeExecutor := init host 2048 120 false true.

Definition w0 : world := {| clock := 0; heap := ∅; calls := [] |}.

Definition caller_context : gmap pystr value :=
  {[py "n" := VInt 7; py "_secret" := VInt 1]}.

Definition w1 : world := {| clock := 100; heap := {[1%positive := caller_context]}; calls := [] |}.

End Sample.

(** ** A second host for the examples

    The caller's data frame has a column whose name is an [a] between
    two spaces.  The snippet prints a line and reads that column; with
    the spaces stripped from the name the lookup raises [KeyError]
    after the line has been printed. *)
Module SampleFrame.

Import Executor.

Definition code : pystr := py "print('start'); result = df[' a ']".

Definition KeyError : exn :=
  Sample.exception ["KeyError"; "LookupError"; "Exception"; "BaseException";
                    "object"] "'a'".

Definition exec (text : pystr) (g l : gmap pystr value) (out : stream)
  : behaviour :=
  if eqb text (py "print('start'); result = df[' a ']") then
    Completes {| eff_globals := g;
                 eff_locals := <[py "result" := VObj (py "Series")]> l;
                 eff_stream := Sample.printed (py "start" ++ [10]) out;
                 eff_elapsed := 3 |}
  else if eqb text (py "print('start'); result = df['a']") then
    Raises KeyError {| eff_globals := g;
                       eff_locals := l;
                       eff_stream := Sample.printed (py "start" ++ [10]) out;
                       eff_elapsed := 2 |}
  else Completes (Sample.unchanged g l out).

Definition host : PyHost :=
  {| ast_parse := ast_parse Sample.host;
     py_compile := fun _ => None;
     py_exec := exec;
     format_exc := format_exc Sample.host;
     dir_builtins := dir_builtins Sample.host;
     getattr_builtins := getattr_builtins Sample.host;
     import_module := import_module Sample.host;
     string_escape_handler := None;
     ru_maxrss := ru_maxrss Sample.host;
     platform_is_darwin := platform_is_darwin Sample.host;
     core_bases := core_bases Sample.host;
     core_str := core_str Sample.host |}.

Definition executor : SecureCodeExecutor := init host 2048 120 false true.

Definition context : gmap pystr value := {[py "df" := VObj (py "DataFrame")]}.

Definition w0 : world :=
  {| clock := 10; heap := {[1%positive := context]}; calls := [] |}.

End SampleFrame.

(** ** Vocabulary of the statements *)
Module Spec.

Import Analyzer Monitor Executor.

(** The calls one pass through [compile] and [exec] makes: the text is
    compiled, and run when that yields a code object. *)
Definition attempt_events (host : PyHost) (text : pystr) : list event :=
  CallCompile text ::
  match py_compile host text with
  | None => [CallExec text]
  | Some _ => []
  end.

(** The calls made before the [with] block is entered. *)
Definition setup_events (code : pystr) : list event :=
  [CallCheckSecurity code; CallPreprocess code; CallCreateGlobals].

(** The process state in which a pass, or a call, ends (if it does). *)
Definition attempt_world (a : attempt) : option world :=
  match a with
  | Done _ w | Failed _ _ w => Some w
  | Stuck => None
  end.

Definition result_world {A : Type} (r : result A) : option world :=
  match r with
  | Returned _ w | Propagated _ w => Some w
  | Hangs => None
  end.

(** The exception comes from compiling or running the text. *)
Definition raised_by (host : PyHost) (text : pystr) (e : exn) : Prop :=
  py_compile host text = Some e \/
  exists g l out f, py_exec host text g l out = Raises e f.



(** The instance [a] after the names recorded in [b] have been added to
    its three collections. *)
Definition merge (a b : ASTSecurityAnalyzer) : ASTSecurityAnalyzer :=
  {| violations := violations a;
     imports := imports a ∪ imports b;
     function_calls := function_calls a ∪ function_calls b;
     attribute_accesses := attribute_accesses a ∪ attribute_accesses b;
     dangerous_builtins := dangerous_builtins a;
     dangerous_modules := dangerous_modules a;
     allowed_modules := allowed_modules a;
     dangerous_attributes := dangerous_attributes a |}.

(** The three collections of an instance, and of a report; inclusion
    of one triple in another. *)
Definition names : Type := gset pystr * gset pystr * gset pystr.

Definition recorded (a : ASTSecurityAnalyzer) : names :=
  (imports a, function_calls a, attribute_accesses a).

Definition reported (r : report) : names :=
  (report_imports r, report_function_calls r, report_attribute_accesses r).

Definition included (x y : names) : Prop :=
  x.1.1 ⊆ y.1.1 /\ x.1.2 ⊆ y.1.2 /\ x.2 ⊆ y.2.

(** Successive calls of [analyze] on one instance: the completions in
    call order and the instance afterwards. *)
Fixpoint analyze_each (host : PyHost) (self : ASTSecurityAnalyzer)
    (codes : list pystr) : list (completion report) * ASTSecurityAnalyzer :=
  match codes with
  | [] => ([], self)
  | code :: codes' =>
      let '(r, self) := analyze host self code in
      let '(rs, self) := analyze_each host self codes' in
      (r :: rs, self)
  end.

(** What analysing one text on a new instance records. *)
Definition found (host : PyHost) (code : pystr) : ASTSecurityAnalyzer :=
  (analyze host Analyzer.init code).2.

(** No recorded import holds a full stop. *)
Definition dot_free (a : ASTSecurityAnalyzer) : Prop :=
  forall name : pystr, name ∈ imports a -> 46 ∉ name.

End Spec.

(** * Properties *)

Import Analyzer Monitor Executor.

(** ** Strings *)
Section strings.

Lemma lstrip_blank (s : pystr) : forallb isspace s = true -> lstrip s = [].
Proof.
  induction s as [|c s IH]; simpl; [done|].
  intros [Hc Hs]%andb_prop. rewrite Hc. auto.
Qed.

Lemma strip_blank (s : pystr) : forallb isspace s = true -> strip s = [].
Proof.
  intros H. unfold strip, rstrip. by rewrite (lstrip_blank s H).
Qed.

Lemma lstrip_nil (s : pystr) : lstrip s = [] -> forallb isspace s = true.
Proof.
  induction s as [|c s IH]; simpl; [done|].
  destruct (isspace c); [exact IH | done].
Qed.

Lemma lstrip_head (s : pystr) c t : lstrip s = c :: t -> isspace c = false.
Proof.
  induction s as [|d s IH]; simpl; [done|].
  destruct (isspace d) eqn:Hd; [exact IH|]. by intros [= <- _].
Qed.

Lemma forallb_rev (f : N -> bool) (s : pystr) :
  forallb f (rev s) = forallb f s.
Proof.
  induction s as [|c s IH]; simpl; [done|].
  rewrite forallb_app, IH. simpl. rewrite andb_true_r. apply andb_comm.
Qed.

(** The test of [execute_code] for blank code fires on exactly the texts
    made of whitespace. *)
Lemma strip_nil_iff_blank (s : pystr) :
  strip s = [] <-> forallb isspace s = true.
Proof.
  split; [|apply strip_blank].
  unfold strip, rstrip. intros H.
  assert (lstrip (rev (lstrip s)) = []) as Hr.
  { apply (f_equal (@rev N)) in H. by rewrite rev_involutive in H. }
  apply lstrip_nil in Hr. rewrite forallb_rev in Hr.
  destruct (lstrip s) as [|c t] eqn:Hs; [by apply lstrip_nil|].
  apply lstrip_head in Hs. simpl in Hr. by rewrite Hs in Hr.
Qed.

Lemma eqb_eq (a b : pystr) : eqb a b = true <-> a = b.
Proof. unfold eqb. apply bool_decide_eq_true. Qed.

Lemma eqb_neq (a b : pystr) : eqb a b = false <-> a <> b.
Proof. unfold eqb. apply bool_decide_eq_false. Qed.

End strings.

(** ** The store of dictionaries *)
Section store.

Lemma new_dict_fresh d w : (new_dict d w).1 ∉ dom (heap w).
Proof. apply is_fresh. Qed.

Lemma new_dict_read d w : read_dict (new_dict d w).1 (new_dict d w).2 = d.
Proof. unfold read_dict, new_dict; simpl. by rewrite lookup_insert_eq. Qed.

Lemma new_dict_heap d w :
  heap (new_dict d w).2 = <[(new_dict d w).1 := d]> (heap w).
Proof. done. Qed.

Lemma new_dict_calls d w : calls (new_dict d w).2 = calls w.
Proof. done. Qed.

Lemma new_dict_clock d w : clock (new_dict d w).2 = clock w.
Proof. done. Qed.

(** Allocation leaves every existing dictionary as it was. *)
Lemma new_dict_frame d w l :
  l ∈ dom (heap w) -> heap (new_dict d w).2 !! l = heap w !! l.
Proof.
  intros Hl. rewrite new_dict_heap, lookup_insert_ne; [done|].
  intros <-. by apply (new_dict_fresh d w).
Qed.

Lemma new_dict_dom d w : dom (heap w) ⊆ dom (heap (new_dict d w).2).
Proof. rewrite new_dict_heap, dom_insert. set_solver. Qed.

Lemma write_dict_frame l d w l' :
  l' <> l -> heap (write_dict l d w) !! l' = heap w !! l'.
Proof. intros H. unfold write_dict; simpl. by rewrite lookup_insert_ne. Qed.

Lemma write_dict_dom l d w : dom (heap w) ⊆ dom (heap (write_dict l d w)).
Proof. unfold write_dict; simpl. rewrite dom_insert. set_solver. Qed.


Lemma read_dict_frame l w w' :
  heap w' !! l = heap w !! l -> read_dict l w' = read_dict l w.
Proof. unfold read_dict. by intros ->. Qed.

End store.

(** ** Preprocessing *)
Section preprocessing.

Lemma span_unquoted_length (s : pystr) :
  (length (span_unquoted s).2 <= length s)%nat.
Proof.
  induction s as [|c s IH]; simpl; [done|].
  destruct (is_quote c); simpl; [done|].
  destruct (span_unquoted s) as [inner rest]. simpl in *. lia.
Qed.

(** A match consumes at least one character. *)
Lemma match_df_shorter (s : pystr) q inner rest :
  match_df s = Some (q, inner, rest) -> (length rest < length s)%nat.
Proof.
  unfold match_df. destruct (startswith s (py "df[")); [|done].
  destruct s as [|c1 [|c2 [|c3 s]]]; try done.
  change (drop 3 (c1 :: c2 :: c3 :: s)) with s.
  destruct s as [|q' t]; [done|].
  destruct (is_quote q'); [|done].
  pose proof (span_unquoted_length t) as Hlen.
  destruct (span_unquoted t) as [inner' t']. simpl in Hlen.
  destruct t' as [|a [|b rest']]; try done.
  destruct ((a =? q') && (b =? 93)); [|done].
  intros [= _ _ <-]. simpl in *. lia.
Qed.

Lemma re_sub_df_S (n : nat) (s : pystr) :
  re_sub_df (S n) s
  = match match_df s with
    | Some (q, inner, rest) =>
        py "df[" ++ [q] ++ strip inner ++ [q] ++ py "]" ++ re_sub_df n rest
    | None =>
        match s with
        | [] => []
        | c :: s' => c :: re_sub_df n s'
        end
    end.
Proof. done. Qed.

(** The substitution has read the whole text after as many turns as the
    text has characters; further turns change nothing. *)
Lemma re_sub_df_enough (n m : nat) (s : pystr) :
  (length s <= n)%nat -> (length s <= m)%nat ->
  re_sub_df n s = re_sub_df m s.
Proof.
  revert m s. induction n as [|n IH]; intros m s Hn Hm.
  - destruct s; [|simpl in Hn; lia]. by destruct m.
  - destruct m as [|m].
    { destruct s; [done|simpl in Hm; lia]. }
    rewrite !re_sub_df_S.
    destruct (match_df s) as [[[q inner] rest]|] eqn:Hmatch.
    + apply match_df_shorter in Hmatch.
      rewrite (IH m rest) by lia. done.
    + destruct s as [|c s]; [done|]. simpl in Hn, Hm.
      rewrite (IH m s) by lia. done.
Qed.

Lemma _preprocess_code_original_fuel (code : pystr) (n : nat) :
  (length code <= n)%nat -> re_sub_df n code = _preprocess_code_original code.
Proof. intros Hn. by apply re_sub_df_enough. Qed.

(** A text in which the pattern matches nowhere is left as it is. *)
Lemma re_sub_df_unchanged (n : nat) (s : pystr) :
  (forall p t, s = p ++ t -> match_df t = None) ->
  re_sub_df n s = s.
Proof.
  revert s. induction n as [|n IH]; intros s Hno; [done|].
  rewrite re_sub_df_S, (Hno [] s eq_refl).
  destruct s as [|c s]; [done|]. f_equal. apply IH.
  intros p t ->. by apply (Hno (c :: p) t).
Qed.

End preprocessing.

(** ** The execution environment *)
Section environment.

Context (host : PyHost) (self : SecureCodeExecutor).

Lemma create_safe_globals_calls w :
  calls (create_safe_globals host self w).2 = calls w ++ [CallCreateGlobals].
Proof. done. Qed.

Lemma create_safe_globals_clock w :
  clock (create_safe_globals host self w).2 = clock w.
Proof. done. Qed.

Lemma create_safe_globals_frame w l :
  l ∈ dom (heap w) ->
  heap (create_safe_globals host self w).2 !! l = heap w !! l.
Proof.
  intros Hl. unfold create_safe_globals.
  set (w0 := log CallCreateGlobals w).
  assert (Hl0 : l ∈ dom (heap w0)) by done.
  destruct (new_dict (safe_builtins_dict host) w0) as [b wb] eqn:Hb.
  assert (wb = (new_dict (safe_builtins_dict host) w0).2) as -> by by rewrite Hb.
  rewrite new_dict_frame.
  - by rewrite new_dict_frame.
  - by apply new_dict_dom.
Qed.

Lemma create_safe_globals_dom w :
  dom (heap w) ⊆ dom (heap (create_safe_globals host self w).2).
Proof.
  intros l Hl. apply elem_of_dom. rewrite create_safe_globals_frame by done.
  by apply elem_of_dom.
Qed.

Lemma create_safe_globals_fresh w :
  (create_safe_globals host self w).1 ∉ dom (heap w).
Proof.
  unfold create_safe_globals.
  set (w0 := log CallCreateGlobals w).
  destruct (new_dict (safe_builtins_dict host) w0) as [b wb] eqn:Hb.
  assert (wb = (new_dict (safe_builtins_dict host) w0).2) as -> by by rewrite Hb.
  intros Hin. eapply new_dict_fresh, new_dict_dom. exact Hin.
Qed.

Lemma create_safe_globals_allocated w :
  (create_safe_globals host self w).1 ∈ dom (heap (create_safe_globals host self w).2).
Proof.
  unfold create_safe_globals.
  destruct (new_dict (safe_builtins_dict host) _) as [b wb].
  rewrite new_dict_heap, dom_insert. set_solver.
Qed.

Lemma add_context_calls l context w :
  calls (add_context l context w) = calls w.
Proof. destruct context as [c|]; simpl; [case_bool_decide|]; done. Qed.

Lemma add_context_clock l context w :
  clock (add_context l context w) = clock w.
Proof. destruct context as [c|]; simpl; [case_bool_decide|]; done. Qed.

Lemma add_context_frame l context w x :
  x <> l -> heap (add_context l context w) !! x = heap w !! x.
Proof.
  intros Hx. destruct context as [c|]; simpl; [case_bool_decide|]; try done.
  by apply write_dict_frame.
Qed.


(** What [build_namespaces] establishes: two new dictionaries, distinct
    from each other and from every dictionary that existed before, none
    of which is touched; one call recorded; no time spent. *)
Lemma build_namespaces_spec context w g l w1 :
  build_namespaces host self context w = (g, l, w1) ->
  (g ∉ dom (heap w)) ∧ (l ∉ dom (heap w)) ∧ g <> l ∧
  (forall x, x ∈ dom (heap w) -> heap w1 !! x = heap w !! x) ∧
  calls w1 = calls w ++ [CallCreateGlobals] ∧
  clock w1 = clock w.
Proof.
  unfold build_namespaces.
  pose proof (create_safe_globals_fresh w) as Hg.
  pose proof (create_safe_globals_frame w) as Hgf.
  pose proof (create_safe_globals_dom w) as Hgd.
  pose proof (create_safe_globals_allocated w) as Hga.
  pose proof (create_safe_globals_calls w) as Hgc.
  pose proof (create_safe_globals_clock w) as Hgk.
  destruct (create_safe_globals host self w) as [g' wa]. cbn [fst snd] in *.
  pose proof (new_dict_fresh ∅ wa) as Hl.
  pose proof (new_dict_frame ∅ wa) as Hlf.
  pose proof (new_dict_calls ∅ wa) as Hc.
  pose proof (new_dict_clock ∅ wa) as Hk.
  destruct (new_dict ∅ wa) as [l' wb]. cbn [fst snd] in *.
  intros [= <- <- <-].
  assert (Hl' : l' ∉ dom (heap w)) by (intros Hin; apply Hl, Hgd, Hin).
  split_and!; [done | done | | | | ].
  - intros <-. by apply Hl.
  - intros x Hx.
    assert (x <> l') as Hne by (intros ->; apply Hl', Hx).
    rewrite (add_context_frame _ _ _ _ Hne).
    rewrite (Hlf x (Hgd x Hx)). by apply Hgf.
  - by rewrite add_context_calls, Hc.
  - by rewrite add_context_clock, Hk.
Qed.


Lemma build_namespaces_no_context w g l w1 :
  build_namespaces host self None w = (g, l, w1) -> read_dict l w1 = ∅.
Proof.
  unfold build_namespaces.
  destruct (create_safe_globals host self w) as [g' wa].
  pose proof (new_dict_read ∅ wa) as Hlr.
  destruct (new_dict ∅ wa) as [l' wb]. cbn [fst snd] in *.
  by intros [= <- <- <-].
Qed.

End environment.

(** ** Passes through [compile] and [exec] *)
Section attempts.

Import Spec.

Context (host : PyHost).

Lemma apply_effect_frame g l f w x :
  x <> g -> x <> l -> heap (apply_effect g l f w) !! x = heap w !! x.
Proof.
  intros Hg Hl. unfold apply_effect, tick; simpl.
  by rewrite !lookup_insert_ne.
Qed.

Lemma apply_effect_calls g l f w : calls (apply_effect g l f w) = calls w.
Proof. done. Qed.

Lemma apply_effect_clock g l f w :
  clock (apply_effect g l f w) = clock w + eff_elapsed f.
Proof. done. Qed.


(** One pass records its own calls, lets time pass, and writes to the
    two dictionaries it was given and to no other. *)
Lemma compile_and_exec_spec text g l out w w' :
  attempt_world (compile_and_exec host text g l out w) = Some w' ->
  calls w' = calls w ++ attempt_events host text ∧
  clock w <= clock w' ∧
  (forall x, x <> g -> x <> l -> heap w' !! x = heap w !! x).
Proof.
  unfold compile_and_exec, attempt_events.
  destruct (py_compile host text) as [e|]; simpl.
  - intros [= <-]. split_and!; [done | simpl; lia | done].
  - destruct (py_exec host text _ _ _) as [f|e f|]; simpl; [| |done].
    all: intros [= <-]; split_and!.
    all: try (rewrite apply_effect_calls; simpl; by rewrite <- app_assoc).
    all: try (rewrite apply_effect_clock; simpl; lia).
    all: intros x Hg Hl; by rewrite apply_effect_frame.
Qed.



(** No handler changes the process state. *)
Lemma handle_world start e out w r w' :
  handle host start e out w = r -> result_world r = Some w' -> w' = w.
Proof.
  unfold handle, failure, str_of, getvalue. intros <-.
  destruct (exn_str_raises e), (stream_closed out).
  all: repeat (destruct (isinstance e _); [by intros [= <-]|]).
  all: by intros [= <-].
Qed.

Lemma handle_not_success start e out w o t res ls w' :
  handle host start e out w <> Returned (Success o res t ls) w'.
Proof.
  unfold handle, failure, str_of, getvalue.
  destruct (exn_str_raises e), (stream_closed out).
  all: repeat (destruct (isinstance e _); [done|]). all: done.
Qed.

(** A failure dictionary made by a handler has all its keys. *)
Lemma handle_not_bare start e out w error message w' :
  handle host start e out w <> Returned (Failure error message None) w'.
Proof.
  unfold handle, failure, str_of, getvalue.
  destruct (exn_str_raises e), (stream_closed out).
  all: repeat (destruct (isinstance e _); [done|]). all: done.
Qed.



(** A pass ends when the snippet does. *)
Lemma compile_and_exec_ends text g l out w :
  (forall g l out, py_exec host text g l out <> Diverges) ->
  compile_and_exec host text g l out w <> Stuck.
Proof.
  intros Hends. unfold compile_and_exec.
  destruct (py_compile host text); [done|].
  specialize (Hends (read_dict g (log (CallExec text) (log (CallCompile text) w)))
                    (read_dict l (log (CallExec text) (log (CallCompile text) w)))
                    out).
  by destruct (py_exec host text _ _ _).
Qed.

Lemma run_with_fallback_ends processed code g l out w :
  (forall g l out, py_exec host processed g l out <> Diverges) ->
  (forall g l out, py_exec host code g l out <> Diverges) ->
  run_with_fallback host processed code g l out w <> Stuck.
Proof.
  intros Hp Hc. unfold run_with_fallback.
  pose proof (compile_and_exec_ends processed g l out w Hp) as H1.
  destruct (compile_and_exec host processed g l out w) as [o1 w1|e o1 w1|];
    [done| |done].
  destruct (isinstance e _); [destruct (negb _)|]; try done.
  by apply compile_and_exec_ends.
Qed.

Lemma compile_and_exec_raised text g l out w e out' w' :
  compile_and_exec host text g l out w = Failed e out' w' ->
  raised_by host text e.
Proof.
  unfold compile_and_exec, raised_by.
  destruct (py_compile host text) as [e0|]; [intros [= <- _ _]; by left|].
  destruct (py_exec host text _ _ _) as [f|e0 f|] eqn:Hx; try done.
  intros [= <- _ _]. right. eauto.
Qed.

Lemma run_with_fallback_raised processed code g l out w e out' w' :
  run_with_fallback host processed code g l out w = Failed e out' w' ->
  raised_by host processed e ∨ raised_by host code e.
Proof.
  unfold run_with_fallback.
  destruct (compile_and_exec host processed g l out w) as [o1 w1|e1 o1 w1|] eqn:H1;
    [done| |done].
  apply compile_and_exec_raised in H1.
  destruct (isinstance e1 _); [destruct (negb _)|].
  - intros H2%compile_and_exec_raised. by right.
  - intros [= <- _ _]. by left.
  - intros [= <- _ _]. by left.
Qed.

Lemma strip_truthy code : truthy (strip code) = true -> truthy code = true.
Proof. by destruct code. Qed.

(** For code that is not blank the three collaborators are called, in
    this order, before anything else. *)
Lemma execute_code_setup_calls self code context w w' :
  truthy (strip code) = true ->
  result_world (execute_code host self code context w) = Some w' ->
  exists later, calls w' = calls w ++ setup_events code ++ later.
Proof.
  intros Hcode. unfold execute_code.
  rewrite Hcode, (strip_truthy code Hcode). cbn [negb orb].
  destruct (build_namespaces _ _ _ _) as [[g l] w1] eqn:Hb.
  apply build_namespaces_spec in Hb as (_ & _ & _ & _ & Hc1 & _).
  assert (Hrun : forall w2,
            attempt_world (run_with_fallback host
              (_preprocess_code_with_string_handling host code) code g l
              StringIO w1)
            = Some w2 ->
            exists later, calls w2 = calls w ++ setup_events code ++ later).
  { intros w2. unfold run_with_fallback.
    destruct (compile_and_exec host _ g l StringIO w1) as [o1 wa|e o1 wa|] eqn:H1;
      [| |done].
    all: pose proof (f_equal attempt_world H1) as Ha;
      apply compile_and_exec_spec in Ha as (Ha & _);
      rewrite Hc1 in Ha; simpl in Ha; rewrite <- !app_assoc in Ha; simpl in Ha.
    - intros [= <-]. eexists. exact Ha.
    - destruct (isinstance e _); [destruct (negb _)|];
        try (intros [= <-]; eexists; exact Ha).
      intros (Hb & _)%compile_and_exec_spec.
      rewrite Hb, Ha. eexists. rewrite <- app_assoc. reflexivity. }
  destruct (run_with_fallback _ _ _ _ _ _ _) as [out w2|e out w2|]; [| |done].
  - destruct (Hrun w2 eq_refl) as [later Hl].
    destruct (getvalue out) as [text|e].
    + pose proof (new_dict_calls (public_bindings (read_dict l w2)) w2) as Hn.
      destruct (new_dict _ w2) as [ls w3]. cbn [fst snd] in Hn.
      intros [= <-]. exists later. by rewrite Hn.
    + intros Hw'. apply (handle_world _ _ _ _ _ _ eq_refl) in Hw' as ->.
      by exists later.
  - intros Hw'. apply (handle_world _ _ _ _ _ _ eq_refl) in Hw' as ->.
    by apply Hrun.
Qed.





End attempts.

(** ** [signal.alarm] *)
Section alarm.

Lemma signal_alarm_positive (now : N) (seconds : Z) (sig : signals) :
  (0 < seconds <= 2147483647)%Z ->
  signal_alarm now seconds sig
  = Return {| sigalrm := sigalrm sig;
              alarm := Some (now + 1000 * Z.to_N seconds) |}.
Proof.
  intros [Hpos Hmax]. unfold signal_alarm.
  assert ((seconds <? -2147483648)%Z = false) as -> by lia.
  assert ((2147483647 <? seconds)%Z = false) as -> by lia.
  cbn [orb]. rewrite Z.mod_small by lia.
  by assert ((0 <? seconds)%Z = true) as -> by lia.
Qed.

Lemma signal_alarm_zero (now : N) (sig : signals) :
  signal_alarm now 0 sig = Return {| sigalrm := sigalrm sig; alarm := None |}.
Proof. reflexivity. Qed.

Lemma signal_alarm_overflow (now : N) (seconds : Z) (sig : signals) :
  (seconds < -2147483648 \/ 2147483647 < seconds)%Z ->
  signal_alarm now seconds sig = Raise alarm_overflow.
Proof.
  intros Hout. unfold signal_alarm.
  destruct (seconds <? -2147483648)%Z eqn:H1; [done|].
  destruct (2147483647 <? seconds)%Z eqn:H2; [done|]. lia.
Qed.

Lemma signal_alarm_fits (now : N) (seconds : Z) (sig : signals) :
  (-2147483648 <= seconds <= 2147483647)%Z ->
  exists armed, signal_alarm now seconds sig = Return armed ∧
                sigalrm armed = sigalrm sig.
Proof.
  intros [Hmin Hmax]. unfold signal_alarm.
  assert ((seconds <? -2147483648)%Z = false) as -> by lia.
  assert ((2147483647 <? seconds)%Z = false) as -> by lia.
  by eexists.
Qed.

(** The [finally] clause never raises. *)
Lemma monitor_exit_returns (now : N) (old_handler : handler) (sig : signals) :
  monitor_exit now old_handler sig
  = Return {| sigalrm := old_handler; alarm := None |}.
Proof. reflexivity. Qed.

End alarm.

(** ** [execute_code] *)
Section execute_code.

Import Spec.

(** Three runs on the sample host: a computed result, a division by
    zero (no handler of its own, so the error kind is the class name),
    and a text that the preprocessing step rewrites. *)
Example scenario_result_is_returned :
  exists locals w',
    execute_code Sample.host Sample.executor (py "result = 2 + 2") None Sample.w0
    = Returned (Success [] (VInt 4) 1 locals) w' ∧
    read_dict locals w' = {[py "result" := VInt 4]}.
Proof. eexists _, _. split; vm_compute; reflexivity. Qed.

Example scenario_division_by_zero :
  exists details w',
    execute_code Sample.host Sample.executor (py "x = 1/0") None Sample.w0
    = Returned (Failure (py "ZeroDivisionError") (py "division by zero")
                        (Some details)) w' ∧
    suggestion details = py "代码执行失败，请检查代码逻辑和语法".
Proof. eexists _, _. split; vm_compute; reflexivity. Qed.

Example scenario_column_name_is_stripped :
  _preprocess_code_original (py "total = df[' price '].sum()")
  = py "total = df['price'].sum()".
Proof. vm_compute. reflexivity. Qed.

(** C3.  Empty or whitespace-only code is rejected at once: the result is
    the failure dictionary with error kind EmptyCode, and the process
    state is the one the call started in, so that no call to the
    security check, to the preprocessing step or to the construction of
    the namespaces has been made. *)
Theorem C3_blank_code_rejected_at_once
    (host : PyHost) (self : SecureCodeExecutor) (code : pystr)
    (context : option loc) (w : world) :
  forallb isspace code = true ->
  execute_code host self code context w
  = Returned (Failure (py "EmptyCode") (py "代码为空") None) w.
Proof.
  intros Hblank. unfold execute_code.
  rewrite (strip_blank code Hblank). simpl.
  by rewrite orb_true_r.
Qed.

Lemma C3_blank_code_rejected_at_once_witness :
  forallb isspace [32; 9; 10; 12288] = true ∧
  execute_code Sample.host Sample.executor [32; 9; 10; 12288] None Sample.w0
  = Returned (Failure (py "EmptyCode") (py "代码为空") None) Sample.w0.
Proof.
  split; [reflexivity|].
  apply C3_blank_code_rejected_at_once. reflexivity.
Defined.

(** C9.  In every success dictionary returned by [execute_code], no key
    of the dictionary under ['locals'] starts with an underscore. *)
Theorem C9_success_locals_have_no_private_name
    (host : PyHost) (self : SecureCodeExecutor) (code : pystr)
    (context : option loc) (w : world)
    (output : pystr) (result : value) (execution_time : N) (locals : loc)
    (w' : world) :
  execute_code host self code context w
  = Returned (Success output result execution_time locals) w' ->
  forall name : pystr,
    name ∈ dom (read_dict locals w') -> startswith name (py "_") = false.
Proof.
  unfold execute_code.
  destruct (negb (truthy code) || negb (truthy (strip code))); [done|].
  destruct (build_namespaces _ _ _ _) as [[g l] w1].
  destruct (run_with_fallback _ _ _ _ _ _ _) as [out w2|e out w2|]; [| |done].
  - destruct (getvalue out) as [text|e];
      [|intros H; by apply handle_not_success in H].
    pose proof (new_dict_read (public_bindings (read_dict l w2)) w2) as Hr.
    destruct (new_dict _ w2) as [ls w3]. cbn [fst snd] in Hr.
    intros [= _ _ _ <- <-] name [v Hv]%elem_of_dom.
    rewrite Hr in Hv. unfold public_bindings in Hv.
    by apply map_lookup_filter_Some in Hv as [_ ?].
  - intros H. by apply handle_not_success in H.
Qed.

Lemma C9_success_locals_have_no_private_name_witness :
  exists output result execution_time locals w',
    execute_code Sample.host Sample.executor (py "_tmp = 1; y = _tmp + 1")
                 (Some 1%positive) Sample.w1
    = Returned (Success output result execution_time locals) w' ∧
    read_dict locals w' = {[py "y" := VInt 2; py "n" := VInt 7]} ∧
    forall name : pystr,
      name ∈ dom (read_dict locals w') -> startswith name (py "_") = false.
Proof.
  eexists _, _, _, _, _. split; [vm_compute; reflexivity|].
  split; [vm_compute; reflexivity|].
  apply (C9_success_locals_have_no_private_name
           Sample.host Sample.executor (py "_tmp = 1; y = _tmp + 1")
           (Some 1%positive) Sample.w1 [] VNone 1).
  vm_compute. reflexivity.
Defined.






(** C5, as stated, fails: the preprocessed text differs from the
    original, running it raises ([SystemExit]), and yet the original
    text is never compiled; the exception leaves [execute_code] after
    the first pass. *)
Lemma C5_counterexample_no_second_pass_after_SystemExit :
  let code := py "raise SystemExit # df[' a ']" in
  let processed := _preprocess_code_with_string_handling Sample.host code in
  processed = py "raise SystemExit # df['a']" ∧
  processed <> code ∧
  raised_by Sample.host processed Sample.SystemExit ∧
  exists w',
    execute_code Sample.host Sample.executor code None Sample.w0
    = Propagated Sample.SystemExit w' ∧
    calls w' = setup_events code ++ attempt_events Sample.host processed ∧
    CallCompile code ∉ calls w'.
Proof.
  cbv zeta. split_and!.
  - vm_compute. reflexivity.
  - vm_compute. discriminate.
  - right. exists ∅, ∅, StringIO. eexists. vm_compute. reflexivity.
  - eexists. split_and!.
    + vm_compute. reflexivity.
    + vm_compute. reflexivity.
    + vm_compute. intros H. by repeat (inversion H as [|? ? ? H']; clear H; rename H' into H).
Qed.

(** C5, amended.  Let the pass over the preprocessed text end with an
    exception that is an instance of [Exception].  If the preprocessed
    text differs from the original, exactly one further pass is made,
    over the original text, and its end decides the result; if the two
    texts are equal, no further pass is made and the exception is
    handed to the handlers. *)
Theorem C5_one_fallback_pass_over_the_original
    (host : PyHost) (self : SecureCodeExecutor) (code : pystr)
    (context : option loc) (w : world)
    (g l : loc) (w1 : world) (e : exn) (out : stream) (wf : world) :
  let processed := _preprocess_code_with_string_handling host code in
  truthy (strip code) = true ->
  build_namespaces host self context
    (log (CallPreprocess code) (log (CallCheckSecurity code) w)) = (g, l, w1) ->
  compile_and_exec host processed g l StringIO w1 = Failed e out wf ->
  isinstance e (py "Exception") = true ->
  (processed <> code ->
     run_with_fallback host processed code g l StringIO w1
     = compile_and_exec host code g l out wf ∧
     forall w',
       result_world (execute_code host self code context w) = Some w' ->
       calls w' = calls w ++ setup_events code
                  ++ attempt_events host processed ++ attempt_events host code) ∧
  (processed = code ->
     execute_code host self code context w = handle host (clock w) e out wf ∧
     calls wf = calls w ++ setup_events code ++ attempt_events host processed).
Proof.
  intros processed Hcode Hb H1 He.
  assert (Hsetup : calls wf = calls w ++ setup_events code
                              ++ attempt_events host processed).
  { pose proof (f_equal attempt_world H1) as Hw.
    apply compile_and_exec_spec in Hw as (-> & _).
    apply build_namespaces_spec in Hb as (_ & _ & _ & _ & -> & _).
    simpl. by rewrite <- !app_assoc. }
  assert (Hrun : processed <> code ->
            run_with_fallback host processed code g l StringIO w1
            = compile_and_exec host code g l out wf).
  { intros Hne. unfold run_with_fallback. fold processed. rewrite H1, He.
    by apply eqb_neq in Hne as ->. }
  unfold execute_code. fold processed.
  rewrite Hcode, (strip_truthy code Hcode), Hb. cbn [negb orb].
  split.
  - intros Hne. split; [by apply Hrun|]. rewrite (Hrun Hne).
    destruct (compile_and_exec host code g l out wf) as [o2 w2|e2 o2 w2|] eqn:H2;
      [| |done].
    all: pose proof (f_equal attempt_world H2) as Hw;
      apply compile_and_exec_spec in Hw as (Hc2 & _).
    + destruct (getvalue o2) as [text|e3].
      * pose proof (new_dict_calls (public_bindings (read_dict l w2)) w2) as Hn.
        destruct (new_dict _ w2) as [ls w3]. cbn [fst snd] in Hn.
        intros w' [= <-]. rewrite Hn, Hc2, Hsetup. by rewrite <- !app_assoc.
      * intros w' Hw'. apply (handle_world _ _ _ _ _ _ _ eq_refl) in Hw' as ->.
        rewrite Hc2, Hsetup. by rewrite <- !app_assoc.
    + intros w' Hw'. apply (handle_world _ _ _ _ _ _ _ eq_refl) in Hw' as ->.
      rewrite Hc2, Hsetup. by rewrite <- !app_assoc.
  - intros Heq. split; [|done].
    unfold run_with_fallback. fold processed. rewrite H1, He.
    by apply eqb_eq in Heq as ->.
Qed.

Lemma C5_one_fallback_pass_over_the_original_witness :
  (let code := py "df[' a ']" in
   let processed := _preprocess_code_with_string_handling Sample.host code in
   processed <> code ∧
   forall w',
     result_world (execute_code Sample.host Sample.executor code None Sample.w0)
     = Some w' ->
     calls w' = calls Sample.w0 ++ setup_events code
                ++ attempt_events Sample.host processed
                ++ attempt_events Sample.host code) ∧
  (let code := py "x = 1/0" in
   _preprocess_code_with_string_handling Sample.host code = code ∧
   exists wf,
     execute_code Sample.host Sample.executor code None Sample.w0
     = handle Sample.host 0 Sample.ZeroDivisionError StringIO wf ∧
     calls wf = calls Sample.w0 ++ setup_events code
                ++ attempt_events Sample.host code).
Proof.
  cbv zeta. split.
  - assert (Hne : _preprocess_code_with_string_handling Sample.host
                    (py "df[' a ']") <> py "df[' a ']")
      by (vm_compute; discriminate).
    split; [exact Hne|].
    edestruct (C5_one_fallback_pass_over_the_original
                 Sample.host Sample.executor (py "df[' a ']") None Sample.w0)
      as [Hdiff _].
    + vm_compute. reflexivity.
    + vm_compute. reflexivity.
    + vm_compute. reflexivity.
    + vm_compute. reflexivity.
    + exact (proj2 (Hdiff Hne)).
  - assert (Heq : _preprocess_code_with_string_handling Sample.host
                    (py "x = 1/0") = py "x = 1/0")
      by (vm_compute; reflexivity).
    split; [exact Heq|].
    edestruct (C5_one_fallback_pass_over_the_original
                 Sample.host Sample.executor (py "x = 1/0") None Sample.w0)
      as [_ Hsame].
    + vm_compute. reflexivity.
    + vm_compute. reflexivity.
    + vm_compute. reflexivity.
    + vm_compute. reflexivity.
    + eexists. exact (Hsame Heq).
Defined.

(** A snippet that does not end keeps [execute_code] from ending,
    whatever time limit the executor was configured with: nothing in
    [execute_code] enters [monitor_execution], the only place where an
    alarm is armed. *)
Lemma execute_code_hangs_with_the_snippet
    (host : PyHost) (self : SecureCodeExecutor) (code : pystr)
    (context : option loc) (w : world) :
  truthy (strip code) = true ->
  py_compile host (_preprocess_code_with_string_handling host code) = None ->
  (forall g l out,
     py_exec host (_preprocess_code_with_string_handling host code) g l out
     = Diverges) ->
  execute_code host self code context w = Hangs.
Proof.
  intros Hcode Hcompile Hloop. unfold execute_code.
  rewrite Hcode, (strip_truthy code Hcode). cbn [negb orb].
  destruct (build_namespaces _ _ _ _) as [[g l] w1].
  unfold run_with_fallback, compile_and_exec.
  by rewrite Hcompile, Hloop.
Qed.

(** C2 at its failing inputs.  With any time limit, [execute_code] on an
    unconditional infinite loop does not return, hence returns no
    timeout failure; and with a limit of two seconds a snippet that
    runs for five is reported as a success with an elapsed time of five
    seconds. *)
Theorem C2_no_deadline_is_enforced :
  (forall max_execution_time context w,
     execute_code Sample.host
                  (init Sample.host 2048 max_execution_time false true)
                  (py "while True: pass") context w
     = Hangs) ∧
  (exists output result locals w',
     execute_code Sample.host (init Sample.host 2048 2 false true)
                  (py "import time; time.sleep(5)") None Sample.w0
     = Returned (Success output result 5000 locals) w').
Proof.
  split.
  - intros max_execution_time context w.
    apply execute_code_hangs_with_the_snippet; [reflexivity | reflexivity |].
    intros g l out. reflexivity.
  - eexists _, _, _, _. vm_compute. reflexivity.
Qed.

End execute_code.

(** ** [ResourceMonitor] *)
Section monitor.

(** Inside [check_memory_usage] every instance of [Exception] is caught
    and logged, the limit error raised two lines above included. *)
Lemma check_memory_usage_returns (host : PyHost) (self : ResourceMonitor) :
  py "Exception" ∈ core_bases host ->
  (forall e, ru_maxrss host = Raise e -> isinstance e (py "Exception") = true) ->
  check_memory_usage host self = Return tt.
Proof.
  intros Hbase Hsample. unfold check_memory_usage, sample_memory.
  destruct (ru_maxrss host) as [usage|e] eqn:Hu.
  - destruct (_ <? _)%Z; [|done].
    unfold isinstance, core_exception; simpl.
    rewrite bool_decide_eq_true_2; [done|]. apply elem_of_cons. by right.
  - by rewrite (Hsample e eq_refl).
Qed.

(** C4 at its failing input.  The limit is one megabyte and the process
    has used four, more than one and a half times the limit.  The
    statements of the [try] raise the limit error with the limit and the
    usage in megabytes, but the call returns to its caller without
    raising. *)
Theorem C4_memory_limit_error_never_reaches_the_caller :
  let self := Monitor.init 1 120 in
  max_memory self = 1048576%Z ∧
  ru_maxrss Sample.host = Return 4096%Z ∧
  platform_is_darwin Sample.host = false ∧
  sample_memory Sample.host self
  = Raise (core_exception Sample.host (py "MemoryLimitError") [VInt 1; VInt 4]) ∧
  check_memory_usage Sample.host self = Return tt.
Proof. cbv zeta. split_and!; reflexivity. Qed.

(** What [execute_code] never uses: entering [monitor_execution] arms
    the alarm at the configured number of seconds from now, and
    leaving it disarms the alarm and restores the previous handler. *)
Lemma monitor_execution_arms_and_disarms
    (self : ResourceMonitor) (now later : N) (sig : signals) :
  (0 < Monitor.max_execution_time self <= 2147483647)%Z ->
  exists entered armed,
    monitor_enter self now sig = (entered, armed, Return (sigalrm sig)) ∧
    alarm armed = Some (now + 1000 * Z.to_N (Monitor.max_execution_time self)) ∧
    sigalrm armed = HandlerTimeout ∧
    timeout_occurred entered = false ∧
    start_time entered = Some now ∧
    monitor_exit later (sigalrm sig) armed
    = Return {| sigalrm := sigalrm sig; alarm := None |}.
Proof.
  intros Hlimit. unfold monitor_enter. cbn [Monitor.max_execution_time].
  rewrite signal_alarm_positive by done. by eexists _, _.
Qed.

End monitor.

(** ** [ASTSecurityAnalyzer] *)
Section analyzer.

Import Spec.

Lemma merge_init (a : ASTSecurityAnalyzer) : merge a Analyzer.init = a.
Proof.
  destruct a. unfold merge; simpl. f_equal; apply (right_id_L ∅ (∪)).
Qed.

Lemma merge_assoc (a b c : ASTSecurityAnalyzer) :
  merge (merge a b) c = merge a (merge b c).
Proof.
  unfold merge; simpl. f_equal; symmetry; apply (assoc_L (∪)).
Qed.

Lemma merge_idemp (a : ASTSecurityAnalyzer) : merge a a = a.
Proof.
  destruct a. unfold merge; simpl. f_equal; apply (idemp_L (∪)).
Qed.

Lemma add_import_merge name a :
  add_import name a = merge a (add_import name Analyzer.init).
Proof.
  unfold add_import, merge; simpl. f_equal.
  - rewrite (right_id_L ∅ (∪)). apply (comm_L (∪)).
  - by rewrite (right_id_L ∅ (∪)).
  - by rewrite (right_id_L ∅ (∪)).
Qed.

Lemma add_function_call_merge name a :
  add_function_call name a = merge a (add_function_call name Analyzer.init).
Proof.
  unfold add_function_call, merge; simpl. f_equal.
  - by rewrite (right_id_L ∅ (∪)).
  - rewrite (right_id_L ∅ (∪)). apply (comm_L (∪)).
  - by rewrite (right_id_L ∅ (∪)).
Qed.

Lemma add_attribute_access_merge name a :
  add_attribute_access name a = merge a (add_attribute_access name Analyzer.init).
Proof.
  unfold add_attribute_access, merge; simpl. f_equal.
  - by rewrite (right_id_L ∅ (∪)).
  - by rewrite (right_id_L ∅ (∪)).
  - rewrite (right_id_L ∅ (∪)). apply (comm_L (∪)).
Qed.

(** A loop whose every turn only adds names only adds names. *)
Lemma fold_left_merge {A : Type}
    (step : ASTSecurityAnalyzer -> A -> ASTSecurityAnalyzer) (items : list A) :
  Forall (fun x => forall a, step a x = merge a (step Analyzer.init x)) items ->
  forall a, fold_left step items a = merge a (fold_left step items Analyzer.init).
Proof.
  induction 1 as [|x items Hx _ IH]; intros a; simpl.
  - by rewrite merge_init.
  - rewrite IH, Hx, merge_assoc. f_equal. by rewrite <- IH.
Qed.

Lemma list_all_Forall (P : node -> Prop) (l : list node) :
  list_all node P l -> Forall P l.
Proof. induction 1; by constructor. Qed.

(** The walk adds the names found in the tree to the collections of the
    instance, and does nothing else to it. *)
Lemma visit_merge (n : node) :
  forall a, visit n a = merge a (visit n Analyzer.init).
Proof.
  induction n as [names|module names|func IHf args IHa|value IHv attr|id
                  |children IHc]; intros a; simpl.
  - apply (fold_left_merge (fun self name => add_import (split_dot_head name) self)).
    apply Forall_forall. intros name _ b. apply add_import_merge.
  - destruct module as [m|]; [destruct (truthy m)|];
      auto using add_import_merge, merge_init.
  - apply list_all_Forall in IHa.
    rewrite (fold_left_merge (fun self child => visit child self) args IHa).
    rewrite (fold_left_merge (fun self child => visit child self) args IHa
               (visit func _)).
    rewrite <- merge_assoc. f_equal.
    rewrite IHf, (IHf (match func with Name id => _ | _ => _ end)).
    rewrite <- merge_assoc. f_equal.
    destruct func; auto using add_function_call_merge, merge_init.
  - rewrite IHv, (IHv (add_attribute_access attr Analyzer.init)).
    rewrite <- merge_assoc. f_equal. apply add_attribute_access_merge.
  - by rewrite merge_init.
  - apply list_all_Forall in IHc.
    apply (fold_left_merge (fun self child => visit child self) children IHc).
Qed.

Lemma visit_idemp (n : node) (a : ASTSecurityAnalyzer) :
  visit n (visit n a) = visit n a.
Proof.
  rewrite (visit_merge n (visit n a)), (visit_merge n a).
  by rewrite merge_assoc, merge_idemp.
Qed.

Lemma included_refl (x : names) : included x x.
Proof. by unfold included. Qed.

Lemma included_trans (x y z : names) :
  included x y -> included y z -> included x z.
Proof.
  unfold included. intros (? & ? & ?) (? & ? & ?).
  split_and!; by etrans.
Qed.

Lemma visit_grows (n : node) (a : ASTSecurityAnalyzer) :
  included (recorded a) (recorded (visit n a)).
Proof.
  rewrite visit_merge. unfold included, recorded, merge; simpl. set_solver.
Qed.

Context (host : PyHost).

(** No call of [analyze] removes a name from the instance. *)
Lemma analyze_grows (a : ASTSecurityAnalyzer) (code : pystr) :
  included (recorded a) (recorded (analyze host a code).2).
Proof.
  unfold analyze. destruct (ast_parse host code) as [tree|e]; simpl.
  - apply visit_grows.
  - destruct (isinstance e _); apply included_refl.
Qed.

(** What a call reports it has recorded. *)
Lemma analyze_reports_recorded (a : ASTSecurityAnalyzer) (code : pystr) r :
  (analyze host a code).1 = Return r ->
  included (reported r) (recorded (analyze host a code).2).
Proof.
  unfold analyze. destruct (ast_parse host code) as [tree|e]; simpl.
  - intros [= <-]. apply included_refl.
  - destruct (isinstance e _); [|done]. intros [= <-].
    unfold included, reported; simpl. set_solver.
Qed.

Lemma analyze_each_grows (a : ASTSecurityAnalyzer) (codes : list pystr) :
  included (recorded a) (recorded (analyze_each host a codes).2).
Proof.
  revert a. induction codes as [|code codes IH]; intros a; simpl.
  - apply included_refl.
  - pose proof (analyze_grows a code) as H1.
    destruct (analyze host a code) as [r a1]. specialize (IH a1).
    destruct (analyze_each host a1 codes) as [rs a2]. simpl in *.
    by eapply included_trans.
Qed.

Lemma analyze_each_reports_recorded (a : ASTSecurityAnalyzer)
    (codes : list pystr) (r : report) :
  Return r ∈ (analyze_each host a codes).1 ->
  included (reported r) (recorded (analyze_each host a codes).2).
Proof.
  revert a. induction codes as [|code codes IH]; intros a; simpl.
  - by intros ?%elem_of_nil.
  - pose proof (analyze_reports_recorded a code r) as H1.
    destruct (analyze host a code) as [r1 a1]. specialize (IH a1).
    pose proof (analyze_each_grows a1 codes) as H2.
    destruct (analyze_each host a1 codes) as [rs a2]. simpl in *.
    intros [Heq|Hin]%elem_of_cons; [subst r1|by apply IH].
    eapply included_trans; [by apply H1|done].
Qed.

End analyzer.

(** ** [analyze] *)
Section analyze.

Import Spec.




(** C7, as stated, fails: on one instance the same text is analysed
    twice, with another text in between, and the two reports differ;
    the second lists an import the text does not contain. *)
Lemma C7_counterexample_report_depends_on_earlier_calls :
  exists r1 r2 r3 a,
    analyze_each Sample.host Analyzer.init
                 [py "x = 1"; py "import os"; py "x = 1"]
    = ([Return r1; Return r2; Return r3], a) ∧
    report_imports r1 = ∅ ∧
    report_imports r3 = {[py "os"]} ∧
    r1 <> r3.
Proof.
  eexists _, _, _, _. split_and!.
  - vm_compute. reflexivity.
  - reflexivity.
  - vm_compute. reflexivity.
  - intros H. apply (f_equal report_imports) in H. vm_compute in H.
    discriminate H.
Qed.

(** C7, amended.  A call of [analyze] repeated at once on the same
    instance and text returns the same value as the first and leaves the
    instance as the first left it.  The report is a function of the text
    and of the names the instance holds from earlier calls: for a text
    that parses, it lists those names together with the names found in
    the tree. *)
Theorem C7_repeated_call_returns_the_same_report
    (host : PyHost) (self : ASTSecurityAnalyzer) (code : pystr) :
  analyze host (analyze host self code).2 code = analyze host self code ∧
  forall tree r self',
    ast_parse host code = Parsed tree ->
    analyze host self code = (Return r, self') ->
    reported r = recorded (merge self (visit tree Analyzer.init)).
Proof.
  split.
  - unfold analyze. destruct (ast_parse host code) as [tree|e]; simpl.
    + by rewrite visit_idemp.
    + by destruct (isinstance e _).
  - intros tree r self' Hparse. unfold analyze. rewrite Hparse.
    intros [= <- _]. by rewrite <- visit_merge.
Qed.

Lemma C7_repeated_call_returns_the_same_report_witness :
  let code := py "import os.path; print(len(sys.argv))" in
  analyze Sample.host (analyze Sample.host Analyzer.init code).2 code
  = analyze Sample.host Analyzer.init code ∧
  exists r self',
    analyze Sample.host Analyzer.init code = (Return r, self') ∧
    reported r = ({[py "os"]}, {[py "print"; py "len"]}, {[py "argv"]}).
Proof.
  cbv zeta.
  destruct (C7_repeated_call_returns_the_same_report
              Sample.host Analyzer.init
              (py "import os.path; print(len(sys.argv))")) as [Hsame Hnames].
  split; [exact Hsame|].
  eexists _, _. split; [reflexivity|].
  rewrite (Hnames _ _ _ eq_refl eq_refl). vm_compute. reflexivity.
Defined.

(** C10, as stated, fails: after a call has recorded the import [os], a
    later call on a text that does not parse returns a report whose
    collections are empty, although the instance still holds [os]. *)
Lemma C10_counterexample_syntax_error_report_is_empty :
  exists r1 r2 a,
    analyze_each Sample.host Analyzer.init [py "import os"; py "("]
    = ([Return r1; Return r2], a) ∧
    py "os" ∈ report_imports r1 ∧
    py "os" ∈ imports a ∧
    py "os" ∉ report_imports r2.
Proof.
  eexists _, _, _. split_and!.
  - vm_compute. reflexivity.
  - compute_done.
  - compute_done.
  - compute_done.
Qed.

(** C10, amended.  On one instance the three collections only grow from
    call to call, and the report of a later call whose text parses
    includes every name the instance holds from the earlier calls, hence
    every name those calls reported. *)
Theorem C10_later_report_includes_earlier_names
    (host : PyHost) (self : ASTSecurityAnalyzer)
    (earlier : list pystr) (later : pystr) (tree : node) :
  ast_parse host later = Parsed tree ->
  let state := (analyze_each host self earlier).2 in
  included (recorded self) (recorded state) ∧
  included (recorded state) (recorded (analyze host state later).2) ∧
  exists r,
    (analyze host state later).1 = Return r ∧
    included (recorded state) (reported r) ∧
    forall r0, Return r0 ∈ (analyze_each host self earlier).1 ->
               included (reported r0) (reported r).
Proof.
  intros Hparse state. split_and!.
  - apply analyze_each_grows.
  - apply analyze_grows.
  - unfold analyze. rewrite Hparse. eexists. split; [done|].
    assert (included (recorded state) (recorded (visit tree state))) as Hle
      by apply visit_grows.
    split; [exact Hle|]. intros r0 Hin.
    eapply included_trans; [|exact Hle].
    by apply analyze_each_reports_recorded.
Qed.

Lemma C10_later_report_includes_earlier_names_witness :
  exists r,
    (analyze Sample.host
       (analyze_each Sample.host Analyzer.init [py "import os"; py "("]).2
       (py "import os.path; print(len(sys.argv))")).1
    = Return r ∧
    forall r0,
      Return r0 ∈ (analyze_each Sample.host Analyzer.init
                     [py "import os"; py "("]).1 ->
      included (reported r0) (reported r).
Proof.
  destruct (C10_later_report_includes_earlier_names
              Sample.host Analyzer.init [py "import os"; py "("]
              (py "import os.path; print(len(sys.argv))")
              (Node [Import [py "os.path"];
                     Node [Call (Name (py "print"))
                                [Call (Name (py "len"))
                                      [Attribute (Name (py "sys")) (py "argv")]]]])
              eq_refl)
    as (_ & _ & r & Hr & _ & Hall).
  exists r. split; [exact Hr | exact Hall].
Defined.

End analyze.

(** ** Further properties of [ASTSecurityAnalyzer] *)
Section analyzer_extras.

Import Spec.

Context (host : PyHost).

Lemma merge_swap (a b c : ASTSecurityAnalyzer) :
  merge (merge a b) c = merge (merge a c) b.
Proof.
  unfold merge; simpl. f_equal.
  all: rewrite <- !(assoc_L (∪)); f_equal; apply (comm_L (∪)).
Qed.

(** A call adds to the instance what the text yields on a new one. *)
Lemma analyze_state (a : ASTSecurityAnalyzer) (code : pystr) :
  (analyze host a code).2 = merge a (found host code).
Proof.
  unfold found, analyze. destruct (ast_parse host code) as [tree|e]; simpl.
  - apply visit_merge.
  - destruct (isinstance e _); simpl; by rewrite merge_init.
Qed.

Lemma analyze_each_state (a : ASTSecurityAnalyzer) (codes : list pystr) :
  (analyze_each host a codes).2
  = fold_left (fun s code => merge s (found host code)) codes a.
Proof.
  revert a. induction codes as [|code codes IH]; intros a; simpl; [done|].
  pose proof (analyze_state a code) as H1.
  destruct (analyze host a code) as [r a1]. specialize (IH a1).
  destruct (analyze_each host a1 codes) as [rs a2]. simpl in *.
  by rewrite IH, H1.
Qed.

Lemma fold_merge_out (a b : ASTSecurityAnalyzer) (codes : list pystr) :
  fold_left (fun s code => merge s (found host code)) codes (merge a b)
  = merge (fold_left (fun s code => merge s (found host code)) codes a) b.
Proof.
  revert a. induction codes as [|code codes IH]; intros a; simpl; [done|].
  by rewrite merge_swap, IH.
Qed.

(** X1.  The order in which texts are analysed on one instance does not
    matter for what the instance holds in the end. *)
Theorem X1_collections_do_not_depend_on_call_order
    (self : ASTSecurityAnalyzer) (codes codes' : list pystr) :
  Permutation codes codes' ->
  (analyze_each host self codes).2 = (analyze_each host self codes').2.
Proof.
  intros Hperm. rewrite !analyze_each_state. revert self.
  induction Hperm as [|c l l' _ IH|c d l|l l' l'' _ IH1 _ IH2]; intros a; simpl.
  - done.
  - apply IH.
  - by rewrite merge_swap.
  - by rewrite IH1, IH2.
Qed.

(** X2.  After any series of calls, each collection of the instance is
    what it was before together with what every text of the series
    yields when analysed alone on a new instance. *)
Theorem X2_collections_are_the_union_over_the_texts
    (self : ASTSecurityAnalyzer) (codes : list pystr) :
  let final := (analyze_each host self codes).2 in
  imports final
  = imports self ∪ ⋃ ((fun code => imports (found host code)) <$> codes) ∧
  function_calls final
  = function_calls self
    ∪ ⋃ ((fun code => function_calls (found host code)) <$> codes) ∧
  attribute_accesses final
  = attribute_accesses self
    ∪ ⋃ ((fun code => attribute_accesses (found host code)) <$> codes).
Proof.
  cbv zeta. rewrite analyze_each_state. revert self.
  induction codes as [|code codes IH]; intros a; simpl.
  - split_and!; by rewrite (right_id_L ∅ (∪)).
  - destruct (IH (merge a (found host code))) as (-> & -> & ->). simpl.
    split_and!; by rewrite (assoc_L (∪)).
Qed.

(** X3.  No call of [analyze] records a violation or changes one of the
    four policy sets: after any series of calls they are as [__init__]
    or the caller left them. *)
Theorem X3_policy_fields_are_never_written
    (self : ASTSecurityAnalyzer) (codes : list pystr) :
  let final := (analyze_each host self codes).2 in
  violations final = violations self ∧
  dangerous_builtins final = dangerous_builtins self ∧
  dangerous_modules final = dangerous_modules self ∧
  allowed_modules final = allowed_modules self ∧
  dangerous_attributes final = dangerous_attributes self.
Proof.
  cbv zeta. rewrite analyze_each_state. revert self.
  induction codes as [|code codes IH]; intros a; simpl; [done|].
  destruct (IH (merge a (found host code))) as (-> & -> & -> & -> & ->).
  done.
Qed.

Lemma split_dot_head_no_dot (s : pystr) : 46 ∉ split_dot_head s.
Proof.
  induction s as [|c s IH]; simpl; [by intros ?%elem_of_nil|].
  destruct (c =? 46) eqn:Hc; [by intros ?%elem_of_nil|].
  intros [Heq|?]%elem_of_cons; [subst c; done|by apply IH].
Qed.

Lemma dot_free_add_import (name : pystr) (a : ASTSecurityAnalyzer) :
  dot_free a -> dot_free (add_import (split_dot_head name) a).
Proof.
  intros Ha n [Heq%elem_of_singleton|Hn]%elem_of_union.
  - subst n. apply split_dot_head_no_dot.
  - by apply Ha.
Qed.

Lemma dot_free_fold {A : Type}
    (step : ASTSecurityAnalyzer -> A -> ASTSecurityAnalyzer) (items : list A) :
  Forall (fun x => forall a, dot_free a -> dot_free (step a x)) items ->
  forall a, dot_free a -> dot_free (fold_left step items a).
Proof.
  induction 1 as [|x items Hx _ IH]; intros a Ha; simpl; [done|].
  by apply IH, Hx.
Qed.

Lemma dot_free_visit (n : node) :
  forall a, dot_free a -> dot_free (visit n a).
Proof.
  induction n as [names|module names|func IHf args IHa|value IHv attr|id
                  |children IHc]; intros a Ha; simpl.
  - apply (dot_free_fold (fun self name => add_import (split_dot_head name) self));
      [|done].
    apply Forall_forall. intros name _ b. apply dot_free_add_import.
  - destruct module as [m|]; [destruct (truthy m)|]; try done.
    by apply dot_free_add_import.
  - apply list_all_Forall in IHa.
    apply (dot_free_fold (fun self child => visit child self) args IHa).
    apply IHf. by destruct func.
  - by apply IHv.
  - done.
  - apply list_all_Forall in IHc.
    by apply (dot_free_fold (fun self child => visit child self) children IHc).
Qed.

(** X4.  Of a dotted module path only the top-level package is recorded:
    on an instance made by [__init__], no series of calls of [analyze]
    ever puts a name with a full stop into [imports]. *)
Theorem X4_imports_hold_top_level_packages_only
    (codes : list pystr) (name : pystr) :
  name ∈ imports (analyze_each host Analyzer.init codes).2 -> 46 ∉ name.
Proof.
  assert (forall a, dot_free a -> dot_free (analyze_each host a codes).2) as H.
  { induction codes as [|code codes' IH]; intros a Ha; simpl; [done|].
    assert (dot_free (analyze host a code).2) as H1.
    { unfold analyze. destruct (ast_parse host code) as [tree|e]; simpl.
      - by apply dot_free_visit.
      - by destruct (isinstance e _). }
    destruct (analyze host a code) as [r a1]. specialize (IH a1 H1).
    by destruct (analyze_each host a1 codes') as [rs a2]. }
  apply H. intros n Hn. by apply not_elem_of_empty in Hn.
Qed.

End analyzer_extras.

Section analyzer_extras_witnesses.

Import Spec.

Lemma X1_collections_do_not_depend_on_call_order_witness :
  Permutation [py "import os"; py "import os.path; print(len(sys.argv))"]
              [py "import os.path; print(len(sys.argv))"; py "import os"] ∧
  (analyze_each Sample.host Analyzer.init
     [py "import os"; py "import os.path; print(len(sys.argv))"]).2
  = (analyze_each Sample.host Analyzer.init
       [py "import os.path; print(len(sys.argv))"; py "import os"]).2.
Proof.
  split; [apply perm_swap|].
  apply (X1_collections_do_not_depend_on_call_order Sample.host). apply perm_swap.
Defined.

Lemma X4_imports_hold_top_level_packages_only_witness :
  py "os" ∈ imports (analyze_each Sample.host Analyzer.init
                       [py "import os.path; print(len(sys.argv))"]).2 ∧
  46 ∉ py "os".
Proof.
  assert (py "os" ∈ imports (analyze_each Sample.host Analyzer.init
                               [py "import os.path; print(len(sys.argv))"]).2)
    as Hin by compute_done.
  split; [exact Hin|].
  exact (X4_imports_hold_top_level_packages_only Sample.host _ _ Hin).
Defined.

End analyzer_extras_witnesses.

(** ** Further properties of [ResourceMonitor] *)
Section monitor_extras.

(** X5.  When the time limit fits the C [int] that [signal.alarm]
    takes, the body of [monitor_execution] is run, and when the block
    is left, however the body ended and whatever it did to the signal
    state, no alarm is pending and the handler for SIGALRM is the one
    installed before the block was entered.  When the limit does not
    fit, [signal.alarm] raises [OverflowError] after the monitor's
    handler has been installed and before the [try] is entered: the
    body is not run, and the monitor's handler stays installed. *)
Theorem X5_leaving_monitor_execution_disarms_and_restores
    {A : Type} (self : ResourceMonitor) (sig : signals)
    (body : ResourceMonitor -> signals -> N
            -> completion A * ResourceMonitor * signals * N)
    (now : N) :
  let limit := Monitor.max_execution_time self in
  ((-2147483648 <= limit <= 2147483647)%Z ->
   exists entered armed,
     monitor_enter self now sig = (entered, armed, Return (sigalrm sig)) ∧
     let '(a, after, _, _) := body entered armed now in
     monitor_execution self sig body now
     = (a, after, {| sigalrm := sigalrm sig; alarm := None |})) ∧
  ((limit < -2147483648 \/ 2147483647 < limit)%Z ->
   exists entered,
     monitor_execution self sig body now
     = (Raise alarm_overflow, entered,
        {| sigalrm := HandlerTimeout; alarm := alarm sig |}) ∧
     start_time entered = Some now).
Proof.
  cbv zeta. split.
  - intros Hfits.
    assert (exists entered armed,
              monitor_enter self now sig = (entered, armed, Return (sigalrm sig)))
      as (entered & armed & Henter).
    { unfold monitor_enter. cbn [Monitor.max_execution_time].
      destruct (signal_alarm_fits now (Monitor.max_execution_time self)
                  {| sigalrm := HandlerTimeout; alarm := alarm sig |} Hfits)
        as (armed & -> & _).
      by eexists _, _. }
    exists entered, armed. split; [done|].
    unfold monitor_execution. rewrite Henter.
    destruct (body entered armed now) as [[[a after] sig'] now'].
    by rewrite monitor_exit_returns.
  - intros Hout. unfold monitor_execution, monitor_enter.
    cbn [Monitor.max_execution_time].
    rewrite signal_alarm_overflow by done. by eexists.
Qed.

Lemma X5_leaving_monitor_execution_disarms_and_restores_witness :
  (exists after,
     monitor_execution (Monitor.init 2048 120)
       {| sigalrm := HandlerOther (py "previous"); alarm := Some 7000 |}
       (fun m s t => (Return tt, m, {| sigalrm := HandlerDefault;
                                       alarm := Some 1 |}, t + 50))
       5000
     = (Return tt, after,
        {| sigalrm := HandlerOther (py "previous"); alarm := None |})) ∧
  (exists entered,
     monitor_execution (Monitor.init 2048 2147483648)
       {| sigalrm := HandlerOther (py "previous"); alarm := None |}
       (fun m s t => (Return tt, m, s, t))
       5000
     = (Raise alarm_overflow, entered,
        {| sigalrm := HandlerTimeout; alarm := None |})).
Proof.
  split.
  - destruct (X5_leaving_monitor_execution_disarms_and_restores
                (Monitor.init 2048 120)
                {| sigalrm := HandlerOther (py "previous"); alarm := Some 7000 |}
                (fun m s t => (Return tt, m, {| sigalrm := HandlerDefault;
                                                alarm := Some 1 |}, t + 50))
                5000) as [Hfits _].
    destruct Hfits as (entered & armed & _ & Hleft); [simpl; lia|].
    exists entered. exact Hleft.
  - destruct (X5_leaving_monitor_execution_disarms_and_restores
                (Monitor.init 2048 2147483648)
                {| sigalrm := HandlerOther (py "previous"); alarm := None |}
                (fun m s t => (Return tt, m, s, t))
                5000) as [_ Hrejected].
    destruct Hrejected as (entered & Hraised & _); [simpl; lia|].
    exists entered. exact Hraised.
Defined.

(** X6.  With a positive time limit that fits the C [int] taken by
    [signal.alarm], entering [monitor_execution] succeeds and the body
    starts with the alarm set to the limit, in seconds from the time of
    entry, with the monitor's own handler installed and the previous
    one saved, and with the monitor's start time and timeout flag
    reset; the limits themselves are untouched. *)
Theorem X6_monitor_execution_arms_the_configured_deadline
    (self : ResourceMonitor) (now : N) (sig : signals) :
  (0 < Monitor.max_execution_time self <= 2147483647)%Z ->
  exists entered armed,
    monitor_enter self now sig = (entered, armed, Return (sigalrm sig)) ∧
    alarm armed = Some (now + 1000 * Z.to_N (Monitor.max_execution_time self)) ∧
    sigalrm armed = HandlerTimeout ∧
    start_time entered = Some now ∧
    timeout_occurred entered = false ∧
    Monitor.max_execution_time entered = Monitor.max_execution_time self ∧
    max_memory entered = max_memory self.
Proof.
  intros Hlimit. unfold monitor_enter. cbn [Monitor.max_execution_time].
  rewrite signal_alarm_positive by done. by eexists _, _.
Qed.

Lemma X6_monitor_execution_arms_the_configured_deadline_witness :
  (0 < Monitor.max_execution_time (Monitor.init 2048 120) <= 2147483647)%Z ∧
  exists entered armed,
    monitor_enter (Monitor.init 2048 120) 5000
                  {| sigalrm := HandlerDefault; alarm := None |}
    = (entered, armed, Return HandlerDefault) ∧
    alarm armed = Some 125000.
Proof.
  assert (0 < Monitor.max_execution_time (Monitor.init 2048 120) <= 2147483647)%Z
    as Hlimit by (simpl; lia).
  split; [exact Hlimit|].
  destruct (X6_monitor_execution_arms_the_configured_deadline
              (Monitor.init 2048 120) 5000
              {| sigalrm := HandlerDefault; alarm := None |} Hlimit)
    as (entered & armed & Henter & Halarm & _).
  exists entered, armed. split; [exact Henter | exact Halarm].
Defined.

(** X7.  With a time limit of zero, entering [monitor_execution] arms no
    alarm at all, and cancels the alarm the caller may have had
    pending: [signal.alarm(0)] only cancels. *)
Theorem X7_zero_limit_arms_nothing
    (self : ResourceMonitor) (now : N) (sig : signals) :
  Monitor.max_execution_time self = 0%Z ->
  exists entered,
    monitor_enter self now sig
    = (entered, {| sigalrm := HandlerTimeout; alarm := None |},
       Return (sigalrm sig)).
Proof.
  intros Hzero. unfold monitor_enter. cbn [Monitor.max_execution_time].
  rewrite Hzero, signal_alarm_zero. by eexists.
Qed.

Lemma X7_zero_limit_arms_nothing_witness :
  Monitor.max_execution_time (Monitor.init 2048 0) = 0%Z ∧
  exists entered,
    monitor_enter (Monitor.init 2048 0) 5000
                  {| sigalrm := HandlerDefault; alarm := Some 7000 |}
    = (entered, {| sigalrm := HandlerTimeout; alarm := None |},
       Return HandlerDefault).
Proof.
  split; [reflexivity|].
  apply (X7_zero_limit_arms_nothing (Monitor.init 2048 0) 5000
           {| sigalrm := HandlerDefault; alarm := Some 7000 |}).
  reflexivity.
Defined.

(** X8.  What the [try] of [check_memory_usage] does on a monitor built
    for [max_memory_mb] megabytes, for a limit and a sample in the
    range in which Python's floating point is exact: it raises exactly
    when twice the sampled usage in bytes exceeds three times the limit
    in bytes (kilobytes are sampled on Linux, bytes on macOS), and the
    error then carries [max_memory_mb] itself and the usage in whole
    megabytes. *)
Theorem X8_limit_error_carries_configured_limit_and_usage
    (host : PyHost) (max_memory_mb limit_seconds usage : Z) :
  (0 <= max_memory_mb < 2 ^ 32)%Z ->
  (0 <= usage < 2 ^ 43)%Z ->
  ru_maxrss host = Return usage ->
  let bytes := if platform_is_darwin host then usage else (usage * 1024)%Z in
  let usage_mb :=
    if platform_is_darwin host then (usage ÷ 1048576)%Z else (usage ÷ 1024)%Z in
  sample_memory host (Monitor.init max_memory_mb limit_seconds)
  = if (3 * (max_memory_mb * 1048576) <? 2 * bytes)%Z
    then Raise (core_exception host (py "MemoryLimitError")
                  [VInt max_memory_mb; VInt usage_mb])
    else Return tt.
Proof.
  intros _ _ Hsample. cbv zeta. unfold sample_memory, Monitor.init. simpl.
  rewrite Hsample.
  replace (max_memory_mb * 1024 * 1024)%Z with (max_memory_mb * 1048576)%Z by lia.
  destruct (_ <? _)%Z; [|done].
  do 3 f_equal.
  - f_equal. change (1024 * 1024)%Z with 1048576%Z. by apply Z.quot_mul.
  - do 2 f_equal. destruct (platform_is_darwin host); [done|].
    change (1024 * 1024)%Z with (1024 * 1024)%Z.
    by rewrite Z.quot_mul_cancel_r.
Qed.

Lemma X8_limit_error_carries_configured_limit_and_usage_witness :
  (0 <= 1 < 2 ^ 32)%Z ∧ (0 <= 4096 < 2 ^ 43)%Z ∧
  ru_maxrss Sample.host = Return 4096%Z ∧
  sample_memory Sample.host (Monitor.init 1 120)
  = Raise (core_exception Sample.host (py "MemoryLimitError") [VInt 1; VInt 4]).
Proof.
  assert (0 <= 1 < 2 ^ 32)%Z as Hlimit by lia.
  assert (0 <= 4096 < 2 ^ 43)%Z as Husage by lia.
  split; [exact Hlimit|]. split; [exact Husage|]. split; [reflexivity|].
  exact (X8_limit_error_carries_configured_limit_and_usage
           Sample.host 1 120 4096 Hlimit Husage eq_refl).
Defined.

End monitor_extras.

(** ** Further properties of [SecureCodeExecutor]: construction and
       namespaces *)
Section init_extras.

Import Spec.

Context (host : PyHost).

(** The loop over the module names: a name other than the two with a
    short alias is bound when it is listed and can be imported. *)
Lemma preload_lookup (l : list pystr) (m : gmap pystr value) (k : pystr) :
  k <> py "pandas" -> k <> py "numpy" -> k <> py "pd" -> k <> py "np" ->
  fold_left (preload host) l m !! k
  = match (if bool_decide (k ∈ l) then import_module host k else None) with
    | Some v => Some v
    | None => m !! k
    end.
Proof.
  intros Hpandas Hnumpy Hpd Hnp. revert m.
  induction l as [|x l IH]; intros m; simpl; [done|].
  rewrite IH. clear IH.
  assert (preload host m x !! k
          = if bool_decide (k = x)
            then match import_module host k with Some v => Some v | None => m !! k end
            else m !! k) as Hstep.
  { unfold preload.
    destruct (eqb x (py "pandas")) eqn:Hx1.
    { apply eqb_eq in Hx1 as ->. rewrite bool_decide_eq_false_2 by done.
      by rewrite !lookup_insert_ne. }
    destruct (eqb x (py "numpy")) eqn:Hx2.
    { apply eqb_eq in Hx2 as ->. rewrite bool_decide_eq_false_2 by done.
      by rewrite !lookup_insert_ne. }
    case_bool_decide as Hk.
    - subst x. destruct (import_module host k); [by rewrite lookup_insert_eq|done].
    - destruct (import_module host x); [by rewrite lookup_insert_ne|done]. }
  rewrite Hstep.
  destruct (decide (k = x)) as [->|Hne].
  - rewrite (bool_decide_eq_true_2 (x = x)) by done.
    rewrite (bool_decide_eq_true_2 (x ∈ x :: l)) by (apply elem_of_cons; by left).
    by destruct (bool_decide (x ∈ l)), (import_module host x).
  - rewrite (bool_decide_eq_false_2 (k = x)) by done.
    destruct (bool_decide (k ∈ l)) eqn:Hl.
    + apply bool_decide_eq_true in Hl.
      rewrite bool_decide_eq_true_2; [done|]. apply elem_of_cons. by right.
    + apply bool_decide_eq_false in Hl.
      rewrite bool_decide_eq_false_2; [done|].
      intros [?|?]%elem_of_cons; done.
Qed.

(** The two aliased modules: once the full name has come up in the
    loop, both keys hold the module bound at import time, and no later
    turn overwrites them as long as the alias itself is not listed. *)
Lemma preload_alias (l : list pystr) (m : gmap pystr value)
    (full short : pystr) (module : value) :
  (forall m', preload host m' full = <[short := module]> (<[full := module]> m')) ->
  (forall m' x, x <> full -> x <> short -> preload host m' x !! full = m' !! full) ->
  (forall m' x, x <> full -> x <> short -> preload host m' x !! short = m' !! short) ->
  full <> short -> short ∉ l -> full ∈ l ->
  fold_left (preload host) l m !! full = Some module ∧
  fold_left (preload host) l m !! short = Some module.
Proof.
  intros Hfull Hkeep1 Hkeep2 Hne Hshort Hin.
  assert (forall l m,
            short ∉ l -> m !! full = Some module -> m !! short = Some module ->
            fold_left (preload host) l m !! full = Some module ∧
            fold_left (preload host) l m !! short = Some module) as Hstable.
  { clear l m Hshort Hin. induction l as [|x l IH]; intros m Hs H1 H2; simpl; [done|].
    apply not_elem_of_cons in Hs as [Hx Hs].
    apply IH; [done| |].
    - destruct (decide (x = full)) as [->|Hxf].
      + rewrite Hfull. rewrite lookup_insert_ne by done. by rewrite lookup_insert_eq.
      + by rewrite Hkeep1.
    - destruct (decide (x = full)) as [->|Hxf].
      + rewrite Hfull. by rewrite lookup_insert_eq.
      + by rewrite Hkeep2. }
  revert m. induction l as [|x l IH]; intros m; [by apply elem_of_nil in Hin|].
  apply not_elem_of_cons in Hshort as [Hx Hs]. simpl.
  destruct (decide (x = full)) as [->|Hxf].
  - apply Hstable; [done| |].
    + rewrite Hfull. rewrite lookup_insert_ne by done. by rewrite lookup_insert_eq.
    + rewrite Hfull. by rewrite lookup_insert_eq.
  - apply IH; [done|]. apply elem_of_cons in Hin as [?|?]; [by subst|done].
Qed.

Lemma preload_pandas (l : list pystr) (m : gmap pystr value) :
  py "pd" ∉ l -> py "pandas" ∈ l ->
  fold_left (preload host) l m !! py "pandas" = Some (pd host) ∧
  fold_left (preload host) l m !! py "pd" = Some (pd host).
Proof.
  apply preload_alias; [done| | |compute_done].
  - intros m' x Hx1 Hx2. unfold preload.
    rewrite (proj2 (eqb_neq _ _) Hx1).
    destruct (eqb x (py "numpy")); [by rewrite !lookup_insert_ne by compute_done|].
    destruct (import_module host x); [by rewrite lookup_insert_ne|done].
  - intros m' x Hx1 Hx2. unfold preload.
    rewrite (proj2 (eqb_neq _ _) Hx1).
    destruct (eqb x (py "numpy")); [by rewrite !lookup_insert_ne by compute_done|].
    destruct (import_module host x); [by rewrite lookup_insert_ne|done].
Qed.

Lemma preload_numpy (l : list pystr) (m : gmap pystr value) :
  py "np" ∉ l -> py "numpy" ∈ l ->
  fold_left (preload host) l m !! py "numpy" = Some (np host) ∧
  fold_left (preload host) l m !! py "np" = Some (np host).
Proof.
  apply preload_alias; [done| | |compute_done].
  - intros m' x Hx1 Hx2. unfold preload.
    destruct (eqb x (py "pandas")); [by rewrite !lookup_insert_ne by compute_done|].
    rewrite (proj2 (eqb_neq _ _) Hx1).
    destruct (import_module host x); [by rewrite lookup_insert_ne|done].
  - intros m' x Hx1 Hx2. unfold preload.
    destruct (eqb x (py "pandas")); [by rewrite !lookup_insert_ne by compute_done|].
    rewrite (proj2 (eqb_neq _ _) Hx1).
    destruct (import_module host x); [by rewrite lookup_insert_ne|done].
Qed.

Lemma init_safe_modules (max_memory_mb limit : Z) (f1 f2 : bool) (k : pystr) :
  k <> py "tabulate" ->
  safe_modules (init host max_memory_mb limit f1 f2) !! k
  = fold_left (preload host) common_modules ∅ !! k.
Proof.
  intros Hk. unfold init; cbn [safe_modules].
  destruct (import_module host (py "tabulate")); [|done].
  by rewrite lookup_insert_ne.
Qed.

(** X9.  Whatever else can be imported, a new executor offers pandas
    and numpy under their full names and under the aliases [pd] and
    [np], each pair bound to one and the same module object. *)
Theorem X9_pandas_and_numpy_are_always_preloaded
    (max_memory_mb limit : Z) (f1 f2 : bool) :
  let self := init host max_memory_mb limit f1 f2 in
  safe_modules self !! py "pandas" = Some (pd host) ∧
  safe_modules self !! py "pd" = Some (pd host) ∧
  safe_modules self !! py "numpy" = Some (np host) ∧
  safe_modules self !! py "np" = Some (np host).
Proof.
  cbv zeta. rewrite !init_safe_modules by done.
  destruct (preload_pandas common_modules ∅) as [-> ->]; [compute_done..|].
  destruct (preload_numpy common_modules ∅) as [-> ->]; [compute_done..|].
  done.
Qed.

(** X10.  Every other module of the list, and tabulate, is offered
    exactly when it can be imported, and then as the imported module; a
    module that cannot be imported is left out without an error.
    Nothing outside the list, the two aliases and tabulate is offered. *)
Theorem X10_listed_modules_are_preloaded_when_importable
    (max_memory_mb limit : Z) (f1 f2 : bool) :
  let self := init host max_memory_mb limit f1 f2 in
  (forall name,
     name ∈ common_modules -> name <> py "pandas" -> name <> py "numpy" ->
     safe_modules self !! name = import_module host name) ∧
  safe_modules self !! py "tabulate" = import_module host (py "tabulate") ∧
  (forall name,
     name ∈ dom (safe_modules self) ->
     name ∈ common_modules ++ [py "pd"; py "np"; py "tabulate"]).
Proof.
  cbv zeta.
  assert (Hpd : py "pd" ∉ common_modules) by compute_done.
  assert (Hnp : py "np" ∉ common_modules) by compute_done.
  assert (Htab : py "tabulate" ∉ common_modules) by compute_done.
  split_and!.
  - intros name Hin Hpandas Hnumpy.
    assert (name <> py "pd") by (by intros ->).
    assert (name <> py "np") by (by intros ->).
    rewrite init_safe_modules by (by intros ->).
    rewrite preload_lookup by done.
    rewrite bool_decide_eq_true_2 by done.
    by destruct (import_module host name).
  - unfold init; cbn [safe_modules].
    destruct (import_module host (py "tabulate")) as [v|] eqn:Hv.
    + by rewrite lookup_insert_eq.
    + rewrite preload_lookup by done.
      rewrite bool_decide_eq_false_2 by done. done.
  - intros name [v Hv]%elem_of_dom. apply elem_of_app.
    destruct (decide (name = py "tabulate")) as [->|Htn].
    { right. compute_done. }
    destruct (decide (name = py "pd")) as [->|?]; [right; compute_done|].
    destruct (decide (name = py "np")) as [->|?]; [right; compute_done|].
    destruct (decide (name = py "pandas")) as [->|?]; [left; compute_done|].
    destruct (decide (name = py "numpy")) as [->|?]; [left; compute_done|].
    left. rewrite init_safe_modules in Hv by done.
    rewrite preload_lookup in Hv by done.
    case_bool_decide; [done|]. by rewrite lookup_empty in Hv.
Qed.

End init_extras.

Section init_extras_witnesses.

Lemma X10_listed_modules_are_preloaded_when_importable_witness :
  safe_modules Sample.executor !! py "os" = Some (VObj (py "os")) ∧
  safe_modules Sample.executor !! py "json" = None ∧
  safe_modules Sample.executor !! py "tabulate" = None.
Proof.
  destruct (X10_listed_modules_are_preloaded_when_importable
              Sample.host 2048 120 false true) as (Hlisted & Htabulate & _).
  unfold Sample.executor. split_and!.
  - rewrite (Hlisted (py "os")) by compute_done. reflexivity.
  - rewrite (Hlisted (py "json")) by compute_done. reflexivity.
  - rewrite Htabulate. reflexivity.
Defined.

End init_extras_witnesses.

(** ** The namespaces of a run *)
Section namespace_extras.

Context (host : PyHost).

(** The loop over [dir(builtins)]: a listed name that passes the test is
    bound to the builtin of that name. *)
Lemma builtins_loop_lookup (l : list pystr) (m : gmap pystr value) (k : pystr) :
  fold_left
    (fun d name =>
       if negb (startswith name (py "_")) || eqb name (py "__import__")
       then <[name := getattr_builtins host name]> d else d) l m !! k
  = if bool_decide (k ∈ l)
       && (negb (startswith k (py "_")) || eqb k (py "__import__"))
    then Some (getattr_builtins host k) else m !! k.
Proof.
  revert m. induction l as [|x l IH]; intros m; simpl; [done|].
  rewrite IH. clear IH.
  destruct (decide (k = x)) as [->|Hne].
  - rewrite (bool_decide_eq_true_2 (x ∈ x :: l)) by (apply elem_of_cons; by left).
    destruct (negb (startswith x (py "_")) || eqb x (py "__import__")); simpl.
    + rewrite andb_true_r. rewrite lookup_insert_eq. by destruct (bool_decide _).
    + by rewrite andb_false_r.
  - assert (bool_decide (k ∈ x :: l) = bool_decide (k ∈ l)) as ->.
    { apply bool_decide_ext. rewrite elem_of_cons.
      split; [by intros [?|?] | by right]. }
    destruct (bool_decide (k ∈ l) && _); [done|].
    destruct (negb (startswith x (py "_")) || eqb x (py "__import__")); [|done].
    by rewrite lookup_insert_ne.
Qed.

(** X11.  The builtins offered to a snippet hold no name that starts
    with an underscore other than [__import__]; they always hold
    [print], [open], [exec] and [eval], and under [__import__] always
    the executor's own unrestricted import function, whatever
    [dir(builtins)] lists. *)
Theorem X11_builtins_have_no_private_name_but_import :
  (forall name,
     name ∈ dom (safe_builtins_dict host) ->
     startswith name (py "_") = false ∨ name = py "__import__") ∧
  safe_builtins_dict host !! py "__import__"
  = Some (VObj (py "unrestricted_import")) ∧
  safe_builtins_dict host !! py "print" = Some (getattr_builtins host (py "print")) ∧
  safe_builtins_dict host !! py "open" = Some (getattr_builtins host (py "open")) ∧
  safe_builtins_dict host !! py "exec" = Some (getattr_builtins host (py "exec")) ∧
  safe_builtins_dict host !! py "eval" = Some (getattr_builtins host (py "eval")).
Proof.
  unfold safe_builtins_dict. split_and!.
  - intros name [v Hv]%elem_of_dom.
    destruct (decide (name = py "__import__")) as [->|?]; [by right|].
    rewrite lookup_insert_ne in Hv by done.
    destruct (decide (name = py "eval")) as [->|?]; [by left|].
    rewrite lookup_insert_ne in Hv by done.
    destruct (decide (name = py "exec")) as [->|?]; [by left|].
    rewrite lookup_insert_ne in Hv by done.
    destruct (decide (name = py "open")) as [->|?]; [by left|].
    rewrite lookup_insert_ne in Hv by done.
    destruct (decide (name = py "print")) as [->|?]; [by left|].
    rewrite lookup_insert_ne in Hv by done.
    rewrite builtins_loop_lookup in Hv.
    destruct (bool_decide _); simpl in Hv; [|by rewrite lookup_empty in Hv].
    destruct (startswith name (py "_")); simpl in Hv; [|by left].
    destruct (eqb name (py "__import__")) eqn:He; [|by rewrite lookup_empty in Hv].
    right. by apply eqb_eq.
  - by rewrite lookup_insert_eq.
  - rewrite !lookup_insert_ne by compute_done. by rewrite lookup_insert_eq.
  - rewrite !lookup_insert_ne by compute_done. by rewrite lookup_insert_eq.
  - rewrite !lookup_insert_ne by compute_done. by rewrite lookup_insert_eq.
  - rewrite !lookup_insert_ne by compute_done. by rewrite lookup_insert_eq.
Qed.

(** X12.  Every name listed by [dir(builtins)] that does not start with
    an underscore is offered to the snippet with the builtin's own
    value; the executor's list [safe_builtins] plays no part in it. *)
Theorem X12_every_public_builtin_is_offered (name : pystr) :
  name ∈ dir_builtins host ->
  startswith name (py "_") = false ->
  safe_builtins_dict host !! name = Some (getattr_builtins host name).
Proof.
  intros Hin Hpublic. unfold safe_builtins_dict.
  assert (name <> py "__import__") by (by intros ->).
  rewrite lookup_insert_ne by done.
  destruct (decide (name = py "eval")) as [->|?]; [by rewrite lookup_insert_eq|].
  rewrite lookup_insert_ne by done.
  destruct (decide (name = py "exec")) as [->|?]; [by rewrite lookup_insert_eq|].
  rewrite lookup_insert_ne by done.
  destruct (decide (name = py "open")) as [->|?]; [by rewrite lookup_insert_eq|].
  rewrite lookup_insert_ne by done.
  destruct (decide (name = py "print")) as [->|?]; [by rewrite lookup_insert_eq|].
  rewrite lookup_insert_ne by done.
  rewrite builtins_loop_lookup, Hpublic.
  by rewrite bool_decide_eq_true_2.
Qed.

(** X13.  Every call of [create_safe_globals] builds the globals anew: a
    new dictionary that holds the preloaded modules and, under
    [__builtins__], a reference to a new dictionary of builtins.  What
    an earlier run stored in its globals or builtins is therefore not
    handed to a later run. *)
Theorem X13_globals_are_built_anew
    (self : SecureCodeExecutor) (w : world) :
  let '(g, w') := create_safe_globals host self w in
  exists b,
    (b ∉ dom (heap w)) ∧ (g ∉ dom (heap w)) ∧ b <> g ∧
    read_dict b w' = safe_builtins_dict host ∧
    read_dict g w'
    = safe_modules self ∪ {[py "__builtins__" := VRef b]}.
Proof.
  unfold create_safe_globals.
  set (w0 := log CallCreateGlobals w).
  pose proof (new_dict_fresh (safe_builtins_dict host) w0) as Hb.
  pose proof (new_dict_read (safe_builtins_dict host) w0) as Hbr.
  pose proof (new_dict_dom (safe_builtins_dict host) w0) as Hbd.
  pose proof (new_dict_heap (safe_builtins_dict host) w0) as Hbh.
  destruct (new_dict (safe_builtins_dict host) w0) as [b wb].
  cbn [fst snd] in *.
  set (globals := safe_modules self ∪ {[py "__builtins__" := VRef b]}).
  pose proof (new_dict_fresh globals wb) as Hg.
  pose proof (new_dict_read globals wb) as Hgr.
  pose proof (new_dict_heap globals wb) as Hgh.
  destruct (new_dict globals wb) as [g wg]. cbn [fst snd] in *.
  assert (b ∈ dom (heap wb)) as Hbin.
  { rewrite Hbh, dom_insert. set_solver. }
  exists b. split_and!; [done| |by intros ->| |done].
  - intros Hin. by apply Hg, Hbd.
  - unfold read_dict in *. rewrite Hgh.
    rewrite lookup_insert_ne by (by intros ->). done.
Qed.

(** X14.  An empty context dictionary counts as no context: the run is
    set up exactly as with [context=None]. *)
Theorem X14_empty_context_is_no_context
    (self : SecureCodeExecutor) (c : loc) (w : world) :
  heap w !! c = Some ∅ ->
  build_namespaces host self (Some c) w = build_namespaces host self None w.
Proof.
  intros Hc. unfold build_namespaces.
  assert (c ∈ dom (heap w)) as Hin by (apply elem_of_dom; eauto).
  pose proof (create_safe_globals_frame host self w c Hin) as Hf.
  pose proof (create_safe_globals_dom host self w) as Hd.
  destruct (create_safe_globals host self w) as [g wa]. cbn [fst snd] in *.
  pose proof (new_dict_frame ∅ wa c (Hd c Hin)) as Hf2.
  destruct (new_dict ∅ wa) as [l wb]. cbn [fst snd] in *.
  unfold add_context.
  rewrite bool_decide_eq_true_2; [done|].
  unfold read_dict. by rewrite Hf2, Hf, Hc.
Qed.

End namespace_extras.

Section namespace_extras_witnesses.

Lemma X12_every_public_builtin_is_offered_witness :
  py "len" ∈ dir_builtins Sample.host ∧
  startswith (py "len") (py "_") = false ∧
  safe_builtins_dict Sample.host !! py "len" = Some (VObj (py "len")).
Proof.
  split_and!; [compute_done | reflexivity |].
  apply (X12_every_public_builtin_is_offered Sample.host (py "len"));
    [compute_done | reflexivity].
Defined.

Lemma X14_empty_context_is_no_context_witness :
  heap {| clock := 0; heap := {[1%positive := ∅]}; calls := [] |} !! 1%positive
  = Some ∅ ∧
  build_namespaces Sample.host Sample.executor (Some 1%positive)
    {| clock := 0; heap := {[1%positive := ∅]}; calls := [] |}
  = build_namespaces Sample.host Sample.executor None
      {| clock := 0; heap := {[1%positive := ∅]}; calls := [] |}.
Proof.
  split; [reflexivity|].
  apply X14_empty_context_is_no_context. reflexivity.
Defined.

End namespace_extras_witnesses.

(** ** Further properties of the preprocessing step *)
Section preprocess_extras.

(** The characters of a text that are not whitespace, in order. *)
Local Abbreviation solid := (List.filter (fun c => negb (isspace c))).

Lemma solid_lstrip (s : pystr) : solid (lstrip s) = solid s.
Proof.
  induction s as [|c s IH]; simpl; [done|].
  destruct (isspace c) eqn:Hc; simpl; [done|]. by rewrite Hc.
Qed.

Lemma solid_strip (s : pystr) : solid (strip s) = solid s.
Proof.
  unfold strip, rstrip.
  rewrite List.filter_rev, solid_lstrip, List.filter_rev, rev_involutive.
  apply solid_lstrip.
Qed.

Lemma lstrip_length (s : pystr) : (length (lstrip s) <= length s)%nat.
Proof.
  induction s as [|c s IH]; simpl; [done|].
  destruct (isspace c); simpl; lia.
Qed.

Lemma strip_length (s : pystr) : (length (strip s) <= length s)%nat.
Proof.
  unfold strip, rstrip. rewrite length_rev.
  etrans; [apply lstrip_length|]. rewrite length_rev. apply lstrip_length.
Qed.

Lemma span_unquoted_app (s : pystr) :
  s = (span_unquoted s).1 ++ (span_unquoted s).2 ∧
  Forall (fun c => is_quote c = false) (span_unquoted s).1.
Proof.
  induction s as [|c s [IH1 IH2]]; simpl; [done|].
  destruct (is_quote c) eqn:Hc; simpl; [done|].
  destruct (span_unquoted s) as [inner rest]. simpl in *.
  split; [by f_equal|by constructor].
Qed.

Lemma startswith_app (s p : pystr) :
  startswith s p = true -> s = p ++ drop (length p) s.
Proof.
  revert s. induction p as [|a p IH]; intros s; simpl; [done|].
  destruct s as [|b s]; [done|].
  intros [Hab Hrest]%andb_prop. apply N.eqb_eq in Hab as ->.
  simpl. f_equal. by apply IH.
Qed.

(** The text a match covers: the opening, the column name between two
    equal quotation marks, and the closing bracket. *)
Lemma match_df_shape (s : pystr) q inner rest :
  match_df s = Some (q, inner, rest) ->
  s = py "df[" ++ [q] ++ inner ++ [q] ++ py "]" ++ rest ∧
  is_quote q = true ∧
  Forall (fun c => is_quote c = false) inner.
Proof.
  unfold match_df. destruct (startswith s (py "df[")) eqn:Hs; [|done].
  apply startswith_app in Hs. change (length (py "df[")) with 3%nat in Hs.
  destruct (drop 3 s) as [|q' t]; [done|].
  destruct (is_quote q') eqn:Hq; [|done].
  destruct (span_unquoted_app t) as [Ht Hinner].
  destruct (span_unquoted t) as [inner' t']. simpl in Ht, Hinner.
  destruct t' as [|a [|b rest']]; try done.
  destruct ((a =? q') && (b =? 93)) eqn:Hab; [|done].
  apply andb_prop in Hab as [->%N.eqb_eq ->%N.eqb_eq].
  intros [= <- <- <-]. split_and!; [|done|done].
  rewrite Hs, Ht. done.
Qed.

Lemma re_sub_df_solid (n : nat) (s : pystr) :
  solid (re_sub_df n s) = solid s ∧
  (length (re_sub_df n s) <= length s)%nat.
Proof.
  revert s. induction n as [|n IH]; intros s; [done|].
  rewrite re_sub_df_S.
  destruct (match_df s) as [[[q inner] rest]|] eqn:Hmatch.
  - apply match_df_shape in Hmatch as (-> & _ & _).
    destruct (IH rest) as [IH1 IH2].
    pose proof (strip_length inner).
    rewrite !List.filter_app, IH1, solid_strip, !length_app. split; [done|lia].
  - destruct s as [|c s]; [done|]. destruct (IH s) as [IH1 IH2].
    simpl. rewrite IH1. split; [done|lia].
Qed.

(** X15.  The column-name rewriting removes whitespace and nothing
    else: the preprocessed text has the same characters other than
    whitespace, in the same order, and is never longer than the
    original. *)
Theorem X15_preprocessing_removes_only_whitespace (code : pystr) :
  List.filter (fun c => negb (isspace c)) (_preprocess_code_original code)
  = List.filter (fun c => negb (isspace c)) code ∧
  (length (_preprocess_code_original code) <= length code)%nat.
Proof. apply re_sub_df_solid. Qed.

(** X16.  A text without quotation marks is left exactly as it is. *)
Theorem X16_text_without_quotes_is_unchanged (code : pystr) :
  Forall (fun c => is_quote c = false) code ->
  _preprocess_code_original code = code.
Proof.
  intros Hno. apply re_sub_df_unchanged. intros p t ->.
  destruct (match_df t) as [[[q inner] rest]|] eqn:Hmatch; [|done].
  apply match_df_shape in Hmatch as (-> & Hq & _).
  rewrite Forall_forall in Hno. rewrite (Hno q) in Hq; [done|].
  rewrite !elem_of_app. right. right. left. apply elem_of_cons. by left.
Qed.

Lemma X16_text_without_quotes_is_unchanged_witness :
  Forall (fun c => is_quote c = false) (py "total = df[col].sum()") ∧
  _preprocess_code_original (py "total = df[col].sum()")
  = py "total = df[col].sum()".
Proof.
  assert (Forall (fun c => is_quote c = false) (py "total = df[col].sum()"))
    as Hno by (apply Forall_forall; intros c Hc; revert c Hc;
               apply Forall_forall; vm_compute; repeat constructor).
  split; [exact Hno|].
  by apply X16_text_without_quotes_is_unchanged.
Defined.

End preprocess_extras.

(** ** Further properties of [execute_code] *)
Section execute_extras.

Import Spec.

Context (host : PyHost).

Lemma public_bindings_lookup (d : gmap pystr value) (k : pystr) :
  startswith k (py "_") = false -> public_bindings d !! k = d !! k.
Proof.
  intros Hk. unfold public_bindings.
  destruct (d !! k) as [v|] eqn:Hd.
  - by apply map_lookup_filter_Some.
  - apply map_lookup_filter_None. by left.
Qed.


(** X17.  In a success dictionary, the value under ['result'] is the
    value the returned ['locals'] hold under the name [result], and
    [None] when they hold none. *)
Theorem X17_result_is_what_locals_bind_to_result
    (self : SecureCodeExecutor) (code : pystr) (context : option loc)
    (w : world) (output : pystr) (result : value) (execution_time : N)
    (locals : loc) (w' : world) :
  execute_code host self code context w
  = Returned (Success output result execution_time locals) w' ->
  result = default VNone (read_dict locals w' !! py "result").
Proof.
  unfold execute_code.
  destruct (negb (truthy code) || negb (truthy (strip code))); [done|].
  destruct (build_namespaces _ _ _ _) as [[g l] w1].
  destruct (run_with_fallback _ _ _ _ _ _ _) as [out w2|e out w2|]; [| |done].
  - destruct (getvalue out) as [text|e];
      [|intros H; by apply handle_not_success in H].
    pose proof (new_dict_read (public_bindings (read_dict l w2)) w2) as Hr.
    destruct (new_dict _ w2) as [ls w3]. cbn [fst snd] in Hr.
    intros [= _ <- _ <- <-]. rewrite Hr.
    by rewrite public_bindings_lookup.
  - intros H. by apply handle_not_success in H.
Qed.

(** X18.  A failure dictionary without elapsed time, suggestion, output
    and trace is returned for blank code only: then the error kind is
    EmptyCode and nothing has been done. *)
Theorem X18_bare_failure_means_blank_code
    (self : SecureCodeExecutor) (code : pystr) (context : option loc)
    (w : world) (error message : pystr) (w' : world) :
  execute_code host self code context w
  = Returned (Failure error message None) w' ->
  forallb isspace code = true ∧ error = py "EmptyCode" ∧ w' = w.
Proof.
  unfold execute_code.
  destruct (negb (truthy code) || negb (truthy (strip code))) eqn:Hblank.
  - intros [= <- _ <-]. split_and!; [|done|done].
    apply strip_nil_iff_blank.
    destruct code as [|c code]; [done|]. simpl in Hblank.
    by destruct (strip (c :: code)).
  - destruct (build_namespaces _ _ _ _) as [[g l] w1].
    destruct (run_with_fallback _ _ _ _ _ _ _) as [out w2|e out w2|]; [| |done].
    + destruct (getvalue out) as [text|e].
      * by destruct (new_dict _ w2).
      * intros H. by apply handle_not_bare in H.
    + intros H. by apply handle_not_bare in H.
Qed.


(** X20.  The limits and the two switches an executor is built with
    have no influence on [execute_code]: executors that differ in
    nothing but these give the same outcome, and so does
    [execute_safe_code] for any two pairs of limits. *)
Theorem X20_limits_and_switches_have_no_effect
    (code : pystr) (context : option loc) (w : world)
    (max_memory_mb max_memory_mb' limit limit' : Z)
    (analysis analysis' validation validation' : bool) :
  execute_code host (init host max_memory_mb limit analysis validation)
               code context w
  = execute_code host (init host max_memory_mb' limit' analysis' validation')
                 code context w ∧
  execute_safe_code host code context max_memory_mb limit w
  = execute_safe_code host code context max_memory_mb' limit' w.
Proof. done. Qed.

(** X21.  For code that is not blank, a call that ends has called the
    security check, the preprocessing and the namespace builder once
    each, then made one pass over the preprocessed text and at most one
    more, over the original text and only if the two differ; a text is
    run only after it has been compiled to a code object. *)
Theorem X21_at_most_two_passes
    (self : SecureCodeExecutor) (code : pystr) (context : option loc)
    (w w' : world) :
  let processed := _preprocess_code_with_string_handling host code in
  truthy (strip code) = true ->
  result_world (execute_code host self code context w) = Some w' ->
  calls w' = calls w ++ setup_events code ++ attempt_events host processed ∨
  (processed <> code ∧
   calls w' = calls w ++ setup_events code ++ attempt_events host processed
              ++ attempt_events host code).
Proof.
  intros processed Hcode. unfold execute_code. fold processed.
  rewrite Hcode, (strip_truthy code Hcode). cbn [negb orb].
  destruct (build_namespaces _ _ _ _) as [[g l] w1] eqn:Hb.
  apply build_namespaces_spec in Hb as (_ & _ & _ & _ & Hc1 & _).
  assert (Hrun : forall w2,
            attempt_world (run_with_fallback host processed code g l StringIO w1)
            = Some w2 ->
            calls w2 = calls w ++ setup_events code
                       ++ attempt_events host processed ∨
            (processed <> code ∧
             calls w2 = calls w ++ setup_events code
                        ++ attempt_events host processed
                        ++ attempt_events host code)).
  { intros w2. unfold run_with_fallback.
    destruct (compile_and_exec host processed g l StringIO w1)
      as [o1 wa|e o1 wa|] eqn:H1; [| |done].
    all: pose proof (f_equal attempt_world H1) as Ha;
      apply compile_and_exec_spec in Ha as (Ha & _);
      rewrite Hc1 in Ha; simpl in Ha; rewrite <- !app_assoc in Ha; simpl in Ha.
    - intros [= <-]. by left.
    - destruct (isinstance e _); [destruct (negb _) eqn:Hne|];
        try (intros [= <-]; by left).
      apply negb_true_iff, eqb_neq in Hne.
      intros (Hb & _)%compile_and_exec_spec.
      right. split; [done|]. rewrite Hb, Ha. simpl.
      by rewrite <- !app_assoc. }
  destruct (run_with_fallback _ _ _ _ _ _ _) as [out w2|e out w2|]; [| |done].
  - destruct (getvalue out) as [text|e].
    + pose proof (new_dict_calls (public_bindings (read_dict l w2)) w2) as Hn.
      destruct (new_dict _ w2) as [ls w3]. cbn [fst snd] in Hn.
      intros [= <-]. rewrite Hn. by apply Hrun.
    + intros Hw'. apply (handle_world _ _ _ _ _ _ _ eq_refl) in Hw' as ->.
      by apply Hrun.
  - intros Hw'. apply (handle_world _ _ _ _ _ _ _ eq_refl) in Hw' as ->.
    by apply Hrun.
Qed.




End execute_extras.

Section execute_extras_witnesses.

Import Spec.

Lemma X17_result_is_what_locals_bind_to_result_witness :
  exists output execution_time locals w',
    execute_code Sample.host Sample.executor (py "result = 2 + 2") None Sample.w0
    = Returned (Success output (VInt 4) execution_time locals) w' ∧
    VInt 4 = default VNone (read_dict locals w' !! py "result").
Proof.
  eexists _, _, _, _. split; [vm_compute; reflexivity|].
  apply (X17_result_is_what_locals_bind_to_result
           Sample.host Sample.executor (py "result = 2 + 2") None Sample.w0 [] _ 1).
  vm_compute. reflexivity.
Defined.

Lemma X18_bare_failure_means_blank_code_witness :
  execute_code Sample.host Sample.executor [32; 10] None Sample.w0
  = Returned (Failure (py "EmptyCode") (py "代码为空") None) Sample.w0 ∧
  forallb isspace [32; 10] = true.
Proof.
  assert (execute_code Sample.host Sample.executor [32; 10] None Sample.w0
          = Returned (Failure (py "EmptyCode") (py "代码为空") None) Sample.w0)
    as Hrun by reflexivity.
  split; [exact Hrun|].
  exact (proj1 (X18_bare_failure_means_blank_code _ _ _ _ _ _ _ _ Hrun)).
Defined.


Lemma X21_at_most_two_passes_witness :
  exists w',
    result_world (execute_code Sample.host Sample.executor (py "df[' a ']")
                               None Sample.w0) = Some w' ∧
    (calls w' = calls Sample.w0 ++ setup_events (py "df[' a ']")
                ++ attempt_events Sample.host (py "df['a']") ∨
     (py "df['a']" <> py "df[' a ']" ∧
      calls w' = calls Sample.w0 ++ setup_events (py "df[' a ']")
                 ++ attempt_events Sample.host (py "df['a']")
                 ++ attempt_events Sample.host (py "df[' a ']"))).
Proof.
  eexists. split; [vm_compute; reflexivity|].
  apply (X21_at_most_two_passes Sample.host Sample.executor (py "df[' a ']")
                                None Sample.w0).
  - reflexivity.
  - vm_compute. reflexivity.
Defined.



End execute_extras_witnesses.
